(** * HuggingFaceModelWrapper: a shallow embedding

    Source: [textattack/models/wrappers/huggingface_model_wrapper.py].

    The wrapper is glue between a tokenizer, a [transformers] model and the
    autograd runtime.  The pieces of Python state that the wrapper reads and
    writes (the autograd switch, train/eval mode, the embedding weight's
    [requires_grad] flag, the backward hooks registered on the embedding
    layer, the accumulated parameter gradients) are gathered in one record,
    [PyState], threaded through a state-and-exception monad.  The collaborators (tokenizer, model
    forward pass, loss function, backward pass) are fields of records, the way
    they are attributes of [self] in the source. *)

From Stdlib Require Import QArith.
From stdpp Require Import gmap strings list fin_maps.

(** ** Python exceptions and results *)

Inductive exn : Type :=
  | IndexError
  | KeyError
  | ValueError
  | TypeError
  | AttributeError
  | NotImplementedError (msg : string)
  | RuntimeError
  | Exception (name : string).

Inductive result (A : Type) : Type :=
  | Ok (a : A)
  | Raise (e : exn).
Arguments Ok {A} a.
Arguments Raise {A} e.

Global Instance result_ret : MRet result := λ A a, Ok a.
Global Instance result_bind : MBind result := λ A B f r,
  match r with
  | Ok a => f a
  | Raise e => Raise e
  end.
Global Instance result_fmap : FMap result := λ A B f r,
  match r with
  | Ok a => Ok (f a)
  | Raise e => Raise e
  end.

Definition raises {A} (r : result A) : Prop := ∃ e, r = Raise e.

(** [l[i]] on a Python list. *)
Definition list_getitem {A} (l : list A) (i : nat) : result A :=
  match l !! i with
  | Some x => Ok x
  | None => Raise IndexError
  end.

(** [d[k]] on a Python dict. *)
Definition dict_getitem {V} (d : gmap string V) (k : string) : result V :=
  match d !! k with
  | Some v => Ok v
  | None => Raise KeyError
  end.

(** A list comprehension whose body may raise: the first exception wins. *)
Fixpoint list_comprehension {A B} (f : A → result B) (l : list A) : result (list B) :=
  match l with
  | [] => Ok []
  | x :: l' =>
      y ← f x;
      ys ← list_comprehension f l';
      Ok (y :: ys)
  end.

(** A dict comprehension [{k: f(k, v) for k, v in d.items()}]. *)
Definition dict_comprehension {V W} (f : string → V → result W)
    (d : gmap string V) : result (gmap string W) :=
  kvs ← list_comprehension (λ kv, w ← f kv.1 kv.2; Ok (kv.1, w)) (map_to_list d);
  Ok (list_to_map kvs).

(** ** Tensors

    A tensor is its shape together with its elements in row-major order.
    Token ids and labels are integers; scores and gradients are rationals,
    of which the wrapper only ever compares two (in the arg-max). *)

Record Tensor (A : Type) : Type := mkTensor {
  shape : list nat;
  data : list A
}.
Arguments mkTensor {A} shape data.
Arguments shape {A} t.
Arguments data {A} t.

Definition numel (s : list nat) : nat := foldr Nat.mul 1 s.

(** [torch.tensor(v)] for a list of integer lists: the rows must all have
    the length of the first one. *)
Definition torch_tensor (v : list (list Z)) : result (Tensor Z) :=
  match v with
  | [] => Ok (mkTensor [0] [])
  | r :: _ =>
      if forallb (λ r', length r' =? length r) v
      then Ok (mkTensor [length v; length r] (concat v))
      else Raise ValueError
  end.

(** The [i]-th block of [n] consecutive elements. *)
Definition block {A} (n i : nat) (l : list A) : list A := take n (drop (i * n) l).

(** [t.unbind(dim=0)]: one tensor per index of the first dimension. *)
Definition unbind0 {A} (t : Tensor A) : result (list (Tensor A)) :=
  match shape t with
  | [] => Raise RuntimeError
  | s0 :: rest =>
      Ok ((λ i, mkTensor rest (block (numel rest) i (data t))) <$> seq 0 s0)
  end.

(** [torch.transpose(t, 0, 1)]: the element at [i, j, r] moves to [j, i, r]. *)
Definition transpose01 {A} (t : Tensor A) : result (Tensor A) :=
  match shape t with
  | s0 :: s1 :: rest =>
      let p := numel rest in
      Ok (mkTensor (s1 :: s0 :: rest)
            (concat ((λ j, concat ((λ i, block p (i * s1 + j) (data t)) <$> seq 0 s0))
                       <$> seq 0 s1)))
  | _ => Raise IndexError
  end.

(** Index of the first maximal element of a non-empty list. *)
Fixpoint argmax_from (best_i : nat) (best : Q) (i : nat) (l : list Q) : nat :=
  match l with
  | [] => best_i
  | x :: l' =>
      if Qlt_le_dec best x
      then argmax_from i x (S i) l'
      else argmax_from best_i best (S i) l'
  end.

Definition argmax_list (l : list Q) : nat :=
  match l with
  | [] => 0
  | x :: l' => argmax_from 0 x 1 l'
  end.

(** The elements [t[i, 0, r], t[i, 1, r], ...] along dimension 1. *)
Definition lane (s1 p : nat) (d : list Q) (i r : nat) : list Q :=
  (λ j, default 0%Q (d !! ((i * s1 + j) * p + r))) <$> seq 0 s1.

(** [t.argmax(dim=1)]. *)
Definition argmax_dim1 (t : Tensor Q) : result (Tensor Z) :=
  match shape t with
  | s0 :: s1 :: rest =>
      if s1 =? 0 then Raise IndexError
      else
        let p := numel rest in
        Ok (mkTensor (s0 :: rest)
              (concat ((λ i, (λ r, Z.of_nat (argmax_list (lane s1 p (data t) i r)))
                                 <$> seq 0 p) <$> seq 0 s0)))
  | _ => Raise IndexError
  end.

(** ** Python values returned by a model *)

#[warnings="-register-all"]
Inductive value : Type :=
  | VStr (s : string)
  | VTensor (t : Tensor Q)
  | VSeq (l : list value).

(** [isinstance(v, str)] *)
Definition isinstance_str (v : value) : bool :=
  match v with
  | VStr _ => true
  | _ => false
  end.

(** ** Mutable state

    What the wrapper reads and writes outside its own locals: the autograd
    switch toggled by [torch.no_grad()], and on the wrapped model its
    train/eval mode, the [requires_grad] flag of the embedding weight, the
    handles of the backward hooks registered on the embedding layer, and the
    gradients accumulated in the parameters since the last [zero_grad()]. *)

Record PyState : Type := mkState {
  grad_enabled : bool;
  training : bool;
  requires_grad : bool;
  backward_hooks : list nat;
  next_handle : nat;
  accumulated_grads : list (Tensor Q)
}.

Definition set_grad_enabled (b : bool) (st : PyState) : PyState :=
  mkState b (training st) (requires_grad st) (backward_hooks st)
          (next_handle st) (accumulated_grads st).
Definition set_training (b : bool) (st : PyState) : PyState :=
  mkState (grad_enabled st) b (requires_grad st) (backward_hooks st)
          (next_handle st) (accumulated_grads st).
Definition set_requires_grad (b : bool) (st : PyState) : PyState :=
  mkState (grad_enabled st) (training st) b (backward_hooks st)
          (next_handle st) (accumulated_grads st).
Definition set_backward_hooks (hs : list nat) (st : PyState) : PyState :=
  mkState (grad_enabled st) (training st) (requires_grad st) hs
          (next_handle st) (accumulated_grads st).
Definition set_next_handle (n : nat) (st : PyState) : PyState :=
  mkState (grad_enabled st) (training st) (requires_grad st) (backward_hooks st)
          n (accumulated_grads st).
Definition set_accumulated_grads (gs : list (Tensor Q)) (st : PyState) : PyState :=
  mkState (grad_enabled st) (training st) (requires_grad st) (backward_hooks st)
          (next_handle st) gs.

(** A computation either returns or raises, and in both cases leaves a
    state behind: an exception does not undo the writes made before it. *)
Definition M (A : Type) : Type := PyState → result A * PyState.

Global Instance M_ret : MRet M := λ A a st, (Ok a, st).
Global Instance M_bind : MBind M := λ A B f m st,
  match m st with
  | (Ok a, st') => f a st'
  | (Raise e, st') => (Raise e, st')
  end.

Definition lift {A} (r : result A) : M A := λ st, (r, st).
Definition raise {A} (e : exn) : M A := λ st, (Raise e, st).
Definition gets {A} (f : PyState → A) : M A := λ st, (Ok (f st), st).
Definition modify (f : PyState → PyState) : M unit := λ st, (Ok (), f st).
Definition reads {A} (f : PyState → result A) : M A := λ st, (f st, st).

(** ** Collaborators *)

Record Tokenizer : Type := {
  encode : string → gmap string (list Z);
  convert_ids_to_tokens : list Z → list string
}.

(** What one backward pass does that the wrapper can observe: the
    [grad_out] tuples (never empty: one entry per output of the layer) with
    which the backward hooks of the embedding layer are invoked, and the
    gradients it adds to the parameters. *)
Record BackwardPass : Type := {
  hook_calls : list (Tensor Q * list (Tensor Q));
  param_grads : list (Tensor Q)
}.

(** The object returned by the loss function; [loss.backward()] is its
    method. *)
Record Loss : Type := {
  backward : PyState → result BackwardPass
}.

(** The wrapped model: its class, as far as [isinstance] asks, and its
    forward pass on named tensor arguments, which reads the state (mode,
    autograd switch) and leaves it as it is. *)
Record Model : Type := {
  is_T5ForTextToText : bool;
  forward : PyState → gmap string (Tensor Z) → result (list value)
}.

Record HuggingFaceModelWrapper : Type := {
  model : Model;
  tokenizer : Tokenizer;
  loss_fn : Tensor Q → Tensor Z → result Loss;
  batch_size : nat
}.

(** ** [_model_predict] *)

(** [{k: [_dict[k] for _dict in inputs] for k in inputs[0]}] *)
Definition dict_of_lists (inputs : list (gmap string (list Z)))
    : result (gmap string (list (list Z))) :=
  first ← list_getitem inputs 0;
  dict_comprehension
    (λ k _, list_comprehension (λ _dict, dict_getitem _dict k) inputs) first.

(** [{k: torch.tensor(v).to(model_device) for k, v in input_dict.items()}];
    moving a tensor to the device of the model's first parameter does not
    change its contents, so the device lookup of line 26 is left out. *)
Definition dict_of_tensors (input_dict : gmap string (list (list Z)))
    : result (gmap string (Tensor Z)) :=
  dict_comprehension (λ _ v, torch_tensor v) input_dict.

Definition _model_predict (self : HuggingFaceModelWrapper)
    (inputs : list (gmap string (list Z))) : M value :=
  reads (λ st,
    input_dict ← dict_of_lists inputs;
    input_dict ← dict_of_tensors input_dict;
    outputs ← forward (model self) st input_dict;
    first ← list_getitem outputs 0;
    if isinstance_str first then Ok (VSeq outputs) else Ok first).

(** ** [tokenize] and [batch_model_predict] *)

(** Modelled from the spec: [tokenize] is inherited from the base wrapper
    class, whose file is not part of the sources at hand.  The spec has it
    turn each text into one EncodedInput, in order. *)
Definition tokenize (self : HuggingFaceModelWrapper) (text_input_list : list string)
    : list (gmap string (list Z)) :=
  encode (tokenizer self) <$> text_input_list.

(** Modelled from the spec: the batching helper is not part of the sources
    at hand; these are its consecutive groups of at most [n] items.  The
    fuel bounds the number of groups ([slices] gives enough of it). *)
Fixpoint slices_fuel {A} (fuel n : nat) (items : list A) : list (list A) :=
  match fuel, items with
  | 0, _ => []
  | _, [] => []
  | S fuel', _ => take n items :: slices_fuel fuel' n (drop n items)
  end.

Definition slices {A} (n : nat) (items : list A) : list (list A) :=
  slices_fuel (length items) n items.

(** Modelled from the spec: [textattack.shared.utils] is not part of the
    sources at hand.  The spec describes its batching helper on slices of the
    items and on results that are a list or a tensor; it does not say what
    the helper does when there is no item at all, nor with a result that is
    neither a list nor a tensor with a first dimension.  These two answers are
    left open, as fields of the module. *)
Record Utils : Type := {
  on_no_items : result (list value);
  on_other_result : value → result (list value)
}.

(** Modelled from the spec: one batch result seen as the sequence of its
    per-input results, the elements of a list or the rows of a tensor. *)
Definition as_sequence (utils : Utils) (v : value) : result (list value) :=
  match v with
  | VSeq l => Ok l
  | VTensor t =>
      match shape t with
      | [] => on_other_result utils v
      | _ => fmap (M := list) VTensor <$> unbind0 t
      end
  | VStr _ => on_other_result utils v
  end.

(** Modelled from the spec: [predict_fn] applied to the first slice and then
    to the following ones, the results concatenated in order. *)
Fixpoint predict_slices {A} (utils : Utils) (predict_fn : list A → M value)
    (g : list A) (groups : list (list A)) : M (list value) :=
  batch_preds ← predict_fn g;
  rows ← lift (as_sequence utils batch_preds);
  match groups with
  | [] => mret rows
  | g' :: groups' =>
      rest ← predict_slices utils predict_fn g' groups';
      mret (rows ++ rest)
  end.

(** Modelled from the spec: [textattack.shared.utils.batch_model_predict]
    is not part of the sources at hand.  The spec has it apply [predict_fn]
    to successive slices of at most [batch_size] items and concatenate the
    results in order, the outcome being an ordered sequence of results. *)
Definition batch_model_predict {A} (utils : Utils) (predict_fn : list A → M value)
    (items : list A) (batch_size : nat) : M (list value) :=
  match slices batch_size items with
  | [] => lift (on_no_items utils)
  | g :: groups => predict_slices utils predict_fn g groups
  end.

(** ** [__call__] *)

(** [with torch.no_grad(): body]: the previous autograd switch is put back
    when the block is left, by return or by exception. *)
Definition with_no_grad {A} (body : M A) : M A := λ st,
  let prev := grad_enabled st in
  let '(r, st') := body (set_grad_enabled false st) in
  (r, set_grad_enabled prev st').

(** The module [textattack.shared.utils], a global of the source, is the
    first argument. *)
Definition __call__ (utils : Utils) (self : HuggingFaceModelWrapper)
    (text_input_list : list string) : M (list value) :=
  let ids := tokenize self text_input_list in
  outputs ← with_no_grad
    (batch_model_predict utils (_model_predict self) ids (batch_size self));
  mret outputs.

(** ** [get_grads] *)

Record GradOutput : Type := {
  tokens : list (list string);
  ids : list (gmap string (list Z));
  gradient : list (Tensor Q)
}.

(** [self.model.train()] *)
Definition model_train : M unit := modify (set_training true).

(** [self.model.zero_grad()] *)
Definition model_zero_grad : M unit := modify (set_accumulated_grads []).

(** [embedding_layer.register_backward_hook(grad_hook)]: the hook is added
    after those already registered and a fresh handle is returned. *)
Definition register_backward_hook : M nat := λ st,
  let h := next_handle st in
  (Ok h, set_next_handle (S h) (set_backward_hooks (backward_hooks st ++ [h]) st)).

(** [emb_hook.remove()] *)
Definition hook_remove (h : nat) : M unit :=
  modify (λ st, set_backward_hooks (filter (λ h', h' ≠ h) (backward_hooks st)) st).

(** The closure [grad_hook]: [emb_grads.append(grad_out[0])]. *)
Definition grad_hook (emb_grads : list (Tensor Q))
    (grad_out : Tensor Q * list (Tensor Q)) : list (Tensor Q) :=
  emb_grads ++ [grad_out.1].

(** [loss.backward()], seen from the call that registered [emb_hook] with
    an empty [emb_grads]: the hook runs once per invocation of the embedding
    layer's backward hooks while it is registered, and the parameters
    accumulate their gradients.  The result is [emb_grads] afterwards.  A
    backward pass that raises is taken to raise before it has written
    anything. *)
Definition loss_backward (loss : Loss) (emb_hook : nat) : M (list (Tensor Q)) := λ st,
  match backward loss st with
  | Raise e => (Raise e, st)
  | Ok pass =>
      let emb_grads :=
        if decide (emb_hook ∈ backward_hooks st)
        then foldl grad_hook [] (hook_calls pass)
        else [] in
      (Ok emb_grads,
       set_accumulated_grads (accumulated_grads st ++ param_grads pass) st)
  end.

(** [predictions.argmax(dim=1)]: only a tensor has the method. *)
Definition as_tensor (v : value) : result (Tensor Q) :=
  match v with
  | VTensor t => Ok t
  | _ => Raise AttributeError
  end.

(** Lines 95-98: split a gradient of more than two dimensions. *)
Definition split_grad (grad : Tensor Q) : result (list (Tensor Q)) :=
  if 2 <? length (shape grad)
  then t ← transpose01 grad; unbind0 t
  else Ok [grad].

Definition get_grads (self : HuggingFaceModelWrapper) (text_input_list : list string)
    : M GradOutput :=
  if is_T5ForTextToText (model self)
  then raise (NotImplementedError
                "`get_grads` for T5FotTextToText has not been implemented yet.")
  else
    model_train;;
    original_state ← gets requires_grad;
    modify (set_requires_grad true);;
    emb_hook ← register_backward_hook;
    model_zero_grad;;
    let ids := tokenize self text_input_list in
    tokens ← lift (list_comprehension
                     (λ _ids, convert_ids_to_tokens (tokenizer self)
                                <$> dict_getitem _ids "input_ids") ids);
    predictions ← _model_predict self ids;
    scores ← lift (as_tensor predictions);
    original_label ← lift (argmax_dim1 scores);
    loss ← lift (loss_fn self scores original_label);
    emb_grads ← loss_backward loss emb_hook;
    grad ← lift (list_getitem emb_grads 0);
    grad ← lift (split_grad grad);
    modify (set_requires_grad original_state);;
    hook_remove emb_hook;;
    mret {| tokens := tokens; ids := ids; gradient := grad |}.

(** ** The states of a [get_grads] run *)

(** The state in which the forward and backward passes run: training mode,
    trainable embedding weight, the fresh hook registered, gradients
    cleared. *)
Definition prepared (st : PyState) : PyState :=
  mkState (grad_enabled st) true true
          (backward_hooks st ++ [next_handle st]) (S (next_handle st)) [].

(** The state in which a run that reaches line 105 returns. *)
Definition restored (st : PyState) (pass : BackwardPass) : PyState :=
  mkState (grad_enabled st) true (requires_grad st)
          (filter (λ h', h' ≠ next_handle st) (backward_hooks st ++ [next_handle st]))
          (S (next_handle st)) (param_grads pass).

(** Line 84, for reference in statements. *)
Definition decode_tokens (self : HuggingFaceModelWrapper)
    (ids : list (gmap string (list Z))) : result (list (list string)) :=
  list_comprehension
    (λ _ids, convert_ids_to_tokens (tokenizer self) <$> dict_getitem _ids "input_ids") ids.

(** Lines 86-90 as a data flow: the scores of the single forward pass, the
    labels taken from them, the loss of the two, its backward pass. *)
Definition backward_trace (self : HuggingFaceModelWrapper) (texts : list string)
    (st : PyState) (scores : Tensor Q) (labels : Tensor Z) (loss : Loss)
    (pass : BackwardPass) : Prop :=
  _model_predict self (tokenize self texts) (prepared st)
    = (Ok (VTensor scores), prepared st) ∧
  argmax_dim1 scores = Ok labels ∧
  loss_fn self scores labels = Ok loss ∧
  backward loss (prepared st) = Ok pass.

(** Every handle in use is older than the next one to be issued. *)
Definition handles_fresh (st : PyState) : Prop :=
  Forall (λ h, h < next_handle st) (backward_hooks st).

(** The slices [raw[i, j]] for all [i], one after the other. *)
Definition gather (s0 s1 p j : nat) (d : list Q) : list Q :=
  concat ((λ i, block p (i * s1 + j) d) <$> seq 0 s0).

(** ** Batches of like-shaped encodings *)



(** The same wrapper with another [batch_size]. *)
Definition with_batch_size (n : nat) (self : HuggingFaceModelWrapper)
    : HuggingFaceModelWrapper :=
  {| model := model self; tokenizer := tokenizer self;
     loss_fn := loss_fn self; batch_size := n |}.

(** The same wrapper around a model that switches autograd off itself
    before every forward pass. *)
Definition without_grad (self : HuggingFaceModelWrapper) : HuggingFaceModelWrapper :=
  {| model := {| is_T5ForTextToText := is_T5ForTextToText (model self);
                 forward := λ st, forward (model self) (set_grad_enabled false st) |};
     tokenizer := tokenizer self; loss_fn := loss_fn self;
     batch_size := batch_size self |}.

(** ** A small concrete wrapper

    Used to run the definitions above on explicit inputs. *)

Module Toy.

(** Three ids per text: a start marker, the length of the text, an end
    marker; the attention mask is all ones. *)
Definition tok : Tokenizer := {|
  encode := λ s, {[ "input_ids" := [101; Z.of_nat (String.length s); 102]%Z;
                    "attention_mask" := [1; 1; 1]%Z ]};
  convert_ids_to_tokens := fmap (λ z : Z,
    if decide (z = 101%Z) then "[CLS]"
    else if decide (z = 102%Z) then "[SEP]" else "word")
|}.

(** A classifier whose score tensor is its [input_ids] argument read as
    scores, so that every row can be told apart in the output. *)
Definition classify (st : PyState) (kwargs : gmap string (Tensor Z))
    : result (list value) :=
  match kwargs !! "input_ids" with
  | Some t => Ok [VTensor (mkTensor (shape t) (inject_Z <$> data t))]
  | None => Raise TypeError
  end.

(** Gradient with respect to the embedding output, laid out the way the
    embedding layer of a [transformers] model produces its output:
    batch first, then token position, then embedding dimension (2 here). *)
Definition embedding_grad (batch seq_len : nat) : Tensor Q :=
  mkTensor [batch; seq_len; 2]
           ((λ i, inject_Z (Z.of_nat i)) <$> seq 0 (batch * seq_len * 2)).

Definition loss3d (scores : Tensor Q) (labels : Tensor Z) : result Loss :=
  Ok {| backward := λ _,
          Ok {| hook_calls := [(embedding_grad (default 0 (shape scores !! 0)) 3, [])];
                param_grads := [mkTensor [1] [1%Q]] |} |}.


Definition classifier : HuggingFaceModelWrapper := {|
  model := {| is_T5ForTextToText := false; forward := classify |};
  tokenizer := tok;
  loss_fn := loss3d;
  batch_size := 2
|}.


Definition t5 : HuggingFaceModelWrapper := {|
  model := {| is_T5ForTextToText := true;
              forward := λ _ kwargs,
                match kwargs !! "input_ids" with
                | Some t => Ok (replicate (default 0 (shape t !! 0)) (VStr "ein Film"))
                | None => Raise TypeError
                end |};
  tokenizer := tok;
  loss_fn := loss3d;
  batch_size := 2
|}.

(** A classifier whose forward pass fails, as on exhausted memory. *)
Definition failing : HuggingFaceModelWrapper := {|
  model := {| is_T5ForTextToText := false; forward := λ _ _, Raise RuntimeError |};
  tokenizer := tok;
  loss_fn := loss3d;
  batch_size := 2
|}.

(** Two encodings with different field names: only the second carries
    an attention mask. *)
Definition ragged : list (gmap string (list Z)) :=
  [ {[ "input_ids" := [101; 7; 102]%Z ]};
    {[ "input_ids" := [101; 9; 102]%Z; "attention_mask" := [1; 1; 1]%Z ]} ].

(** Evaluation mode, frozen embedding weight, no hook registered. *)
Definition st0 : PyState := mkState true false false [] 0 [].

Definition texts : list string := ["good movie"; "bad"].

Definition five : list string := ["a"; "bb"; "ccc"; "dddd"; "eeeee"].

(** What [classify] says of one example. *)
Definition row (e : gmap string (list Z)) : value :=
  VTensor (mkTensor [3] (inject_Z <$> default [] (e !! "input_ids"))).


(** One way to fill in what the spec leaves open about the helper module. *)
Definition utils : Utils :=
  {| on_no_items := Raise ValueError; on_other_result := λ _, Raise TypeError |}.

End Toy.

(** ** The two halves of a [get_grads] run

    Lines 83-90, which run in the prepared state and do not write to it
    until the backward pass has succeeded, and lines 93-98, which only look at
    what the hook has collected. *)

Definition forward_backward (self : HuggingFaceModelWrapper) (texts : list string)
    (st : PyState) : result (list (list string) * BackwardPass) :=
  toks ← decode_tokens self (tokenize self texts);
  predictions ← (_model_predict self (tokenize self texts) (prepared st)).1;
  scores ← as_tensor predictions;
  original_label ← argmax_dim1 scores;
  loss ← loss_fn self scores original_label;
  pass ← backward loss (prepared st);
  Ok (toks, pass).

Definition captured_split (pass : BackwardPass) : result (list (Tensor Q)) :=
  grad ← list_getitem (hook_calls pass).*1 0;
  split_grad grad.

(** ** Shapes of a batch *)



(** ** More concrete wrappers and inputs *)

Module Cases.


(** A tokenizer that names its id sequence differently. *)
Definition other_tok : Tokenizer := {|
  encode := λ s, {[ "token_ids" := [101; Z.of_nat (String.length s); 102]%Z ]};
  convert_ids_to_tokens := fmap (λ _ : Z, "word")
|}.

Definition no_input_ids : HuggingFaceModelWrapper := {|
  model := {| is_T5ForTextToText := false; forward := Toy.classify |};
  tokenizer := other_tok;
  loss_fn := Toy.loss3d;
  batch_size := 2
|}.



(** A classifier that answers differently when autograd is on. *)
Definition grad_sensitive : HuggingFaceModelWrapper := {|
  model := {| is_T5ForTextToText := false;
              forward := λ st kwargs,
                if grad_enabled st then Raise RuntimeError
                else Toy.classify st kwargs |};
  tokenizer := Toy.tok;
  loss_fn := Toy.loss3d;
  batch_size := 2
|}.

(** A generation model that is not of the refused class. *)
Definition generator : HuggingFaceModelWrapper := {|
  model := {| is_T5ForTextToText := false;
              forward := λ _ kwargs,
                match kwargs !! "input_ids" with
                | Some t => Ok (replicate (default 0 (shape t !! 0)) (VStr "ein Film"))
                | None => Raise TypeError
                end |};
  tokenizer := Toy.tok;
  loss_fn := Toy.loss3d;
  batch_size := 2
|}.


(** A loss whose backward pass never reaches the embedding layer. *)
Definition detached : HuggingFaceModelWrapper := {|
  model := {| is_T5ForTextToText := false; forward := Toy.classify |};
  tokenizer := Toy.tok;
  loss_fn := λ _ _,
    Ok {| backward := λ _,
            Ok {| hook_calls := []; param_grads := [mkTensor [1] [1%Q]] |} |};
  batch_size := 2
|}.

(** A state with gradients left over, a trainable embedding weight and a
    hook registered by someone else. *)
Definition st1 : PyState :=
  mkState true false true [4] 7 [mkTensor [1] [5%Q]].

End Cases.

(** * Properties *)

(** ** The tensor operations on small inputs *)

Example argmax_dim1_ex :
  argmax_dim1 (mkTensor [2; 3] [1#2; 3#1; 3#1;  5#1; 0#1; 4#1]%Q)
  = Ok (mkTensor [2] [1; 0]%Z).
Proof. reflexivity. Qed.

Example transpose01_ex :
  transpose01 (mkTensor [2; 3; 1] [1; 2; 3; 4; 5; 6]%Z)
  = Ok (mkTensor [3; 2; 1] [1; 4; 2; 5; 3; 6]%Z).
Proof. reflexivity. Qed.

Example unbind0_ex :
  unbind0 (mkTensor [2; 3] [1; 2; 3; 4; 5; 6]%Z)
  = Ok [mkTensor [3] [1; 2; 3]%Z; mkTensor [3] [4; 5; 6]%Z].
Proof. reflexivity. Qed.

Example torch_tensor_ragged_ex : torch_tensor [[1; 2]; [3]]%Z = Raise ValueError.
Proof. reflexivity. Qed.

Example slices_ex : slices 2 [1; 2; 3; 4; 5] = [[1; 2]; [3; 4]; [5]].
Proof. reflexivity. Qed.

(** ** Comprehensions *)

Section comprehensions.
Context {A B : Type} (f : A → result B).

Lemma list_comprehension_Ok l ys :
  list_comprehension f l = Ok ys ↔ Forall2 (λ x y, f x = Ok y) l ys.
Proof.
  revert ys. induction l as [|x l IH]; intros ys; simpl.
  - split; [intros [= <-]; constructor | by inversion 1].
  - destruct (f x) as [y|e] eqn:Hx; simpl.
    + destruct (list_comprehension f l) as [ys'|e] eqn:Hl; simpl.
      * split.
        -- intros [= <-]. constructor; [done | by apply IH].
        -- inversion 1 as [|? y' ? ys'' Hy Hys]; subst.
           apply IH in Hys. congruence.
      * split; [done|]. inversion 1 as [|? y' ? ys'' Hy Hys]; subst.
        apply IH in Hys. congruence.
    + split; [done|]. inversion 1; congruence.
Qed.

Lemma list_comprehension_Raise l e :
  list_comprehension f l = Raise e → ∃ x, x ∈ l ∧ f x = Raise e.
Proof.
  induction l as [|x l IH]; simpl; [done|].
  destruct (f x) as [y|e'] eqn:Hx; simpl.
  - destruct (list_comprehension f l) as [ys'|e'] eqn:Hl; simpl; [done|].
    intros [= ->]. destruct IH as (x' & ? & ?); [done|].
    exists x'. split; [by right | done].
  - intros [= ->]. exists x. split; [by left | done].
Qed.

Lemma list_comprehension_fmap (g : A → B) l :
  Forall (λ x, f x = Ok (g x)) l → list_comprehension f l = Ok (g <$> l).
Proof.
  intros H. apply list_comprehension_Ok.
  induction H; simpl; constructor; auto.
Qed.

Lemma list_comprehension_length l ys :
  list_comprehension f l = Ok ys → length ys = length l.
Proof.
  intros H%list_comprehension_Ok. symmetry. by eapply Forall2_length.
Qed.
End comprehensions.

Section dict_comprehension.
Context {V W : Type} (f : string → V → result W).

Lemma dict_comprehension_Ok_inv d m k :
  dict_comprehension f d = Ok m →
  match d !! k with
  | Some v => ∃ w, f k v = Ok w ∧ m !! k = Some w
  | None => m !! k = None
  end.
Proof.
  unfold dict_comprehension.
  destruct (list_comprehension _ (map_to_list d)) as [kvs|e] eqn:Hl; simpl; [|done].
  intros [= <-]. apply list_comprehension_Ok in Hl.
  assert (Hfst : kvs.*1 = (map_to_list d).*1).
  { clear k. induction Hl as [|[k v] kw l kws Hkw _ IH]; simpl in *; [done|].
    destruct (f k v); simplify_eq/=. by f_equal. }
  assert (Hnd : NoDup kvs.*1) by (rewrite Hfst; apply NoDup_fst_map_to_list).
  destruct (d !! k) as [v|] eqn:Hk.
  - apply elem_of_map_to_list in Hk.
    apply list_elem_of_lookup_1 in Hk as [i Hi].
    destruct (Forall2_lookup_l _ _ _ _ _ Hl Hi) as (kw & Hkw & Hf). simpl in Hf.
    destruct (f k v) as [w|] eqn:Hfk; simplify_eq/=.
    exists w. split; [done|]. apply elem_of_list_to_map_1; [done|].
    by eapply list_elem_of_lookup_2.
  - apply not_elem_of_list_to_map_1. rewrite Hfst.
    intros ((k' & v) & -> & Hin)%list_elem_of_fmap.
    apply elem_of_map_to_list in Hin. simpl in *. congruence.
Qed.

Lemma dict_comprehension_Raise d e :
  dict_comprehension f d = Raise e → ∃ k v, d !! k = Some v ∧ f k v = Raise e.
Proof.
  unfold dict_comprehension.
  destruct (list_comprehension _ (map_to_list d)) as [kvs|e'] eqn:Hl; simpl; [done|].
  intros [= ->]. apply list_comprehension_Raise in Hl as ([k v] & Hin & Hf).
  exists k, v. split; [by apply elem_of_map_to_list|].
  simpl in Hf. by destruct (f k v); simplify_eq/=.
Qed.

(** When the body never raises, the result has the keys of [d]. *)
Lemma dict_comprehension_total (g : string → V → W) d :
  (∀ k v, d !! k = Some v → f k v = Ok (g k v)) →
  dict_comprehension f d = Ok (map_imap (λ k v, Some (g k v)) d).
Proof.
  intros Hg. destruct (dict_comprehension f d) as [m|e] eqn:Hd.
  - f_equal. apply map_eq. intros k. rewrite map_lookup_imap.
    pose proof (dict_comprehension_Ok_inv d m k Hd) as Hk.
    destruct (d !! k) as [v|] eqn:Hdk; simpl; [|done].
    destruct Hk as (w & Hw & ->). rewrite (Hg _ _ Hdk) in Hw. congruence.
  - apply dict_comprehension_Raise in Hd as (k & v & Hk & Hf).
    rewrite (Hg _ _ Hk) in Hf. done.
Qed.

Lemma dict_comprehension_dom d m :
  dict_comprehension f d = Ok m → dom m = dom d.
Proof.
  intros Hd. apply set_eq. intros k. rewrite !elem_of_dom.
  pose proof (dict_comprehension_Ok_inv d m k Hd) as Hk.
  destruct (d !! k) as [v|].
  - destruct Hk as (w & _ & ->). split; eauto.
  - rewrite Hk. split; intros [? ?]; done.
Qed.
End dict_comprehension.

(** ** The transposition of [_model_predict] *)

Lemma dict_of_lists_nil : dict_of_lists [] = Raise IndexError.
Proof. reflexivity. Qed.

Lemma dict_of_lists_cons first rest :
  dict_of_lists (first :: rest)
  = dict_comprehension
      (λ k _, list_comprehension (λ _dict, dict_getitem _dict k) (first :: rest)) first.
Proof. reflexivity. Qed.

Lemma column_Ok k (inputs : list (gmap string (list Z))) :
  Forall (λ d, is_Some (d !! k)) inputs →
  list_comprehension (λ _dict, dict_getitem _dict k) inputs
  = Ok ((λ d, default [] (d !! k)) <$> inputs).
Proof.
  intros H. apply list_comprehension_fmap.
  eapply Forall_impl; [exact H|]. intros d [v Hv]. unfold dict_getitem. by rewrite Hv.
Qed.

Lemma column_Raise k (inputs : list (gmap string (list Z))) e :
  list_comprehension (λ _dict, dict_getitem _dict k) inputs = Raise e →
  e = KeyError ∧ ∃ d, d ∈ inputs ∧ d !! k = None.
Proof.
  intros (d & Hd & Hk)%list_comprehension_Raise. unfold dict_getitem in Hk.
  destruct (d !! k) eqn:Hdk; simplify_eq. eauto.
Qed.

Lemma dict_of_lists_Raise first rest e :
  dict_of_lists (first :: rest) = Raise e →
  e = KeyError ∧ ∃ d k, d ∈ rest ∧ is_Some (first !! k) ∧ d !! k = None.
Proof.
  rewrite dict_of_lists_cons.
  intros (k & v & Hk & (-> & d & Hd & Hdk)%column_Raise)%dict_comprehension_Raise.
  split; [done|]. exists d, k. split_and!; [|by eauto|done].
  apply elem_of_cons in Hd as [->|Hd]; [congruence|done].
Qed.

Lemma dict_of_lists_Ok first rest m :
  dict_of_lists (first :: rest) = Ok m →
  dom m = dom first ∧
  ∀ k, is_Some (first !! k) →
       Forall (λ d, is_Some (d !! k)) (first :: rest) ∧
       m !! k = Some ((λ d, default [] (d !! k)) <$> first :: rest).
Proof.
  rewrite dict_of_lists_cons. intros Hm. split.
  { by eapply dict_comprehension_dom. }
  intros k [v Hk].
  pose proof (dict_comprehension_Ok_inv _ _ _ k Hm) as Hmk. rewrite Hk in Hmk.
  destruct Hmk as (col & Hcol & Hlook).
  assert (Hall : Forall (λ d, is_Some (d !! k)) (first :: rest)).
  { apply list_comprehension_Ok in Hcol. apply Forall_forall. intros d Hd.
    apply list_elem_of_lookup_1 in Hd as [i Hi].
    destruct (Forall2_lookup_l _ _ _ _ _ Hcol Hi) as (x & _ & Hx).
    unfold dict_getitem in Hx. destruct (d !! k); [eauto | done]. }
  split; [done|]. rewrite (column_Ok _ _ Hall) in Hcol. congruence.
Qed.

Lemma dict_of_lists_Raise_intro first rest d k :
  d ∈ rest → is_Some (first !! k) → d !! k = None →
  dict_of_lists (first :: rest) = Raise KeyError.
Proof.
  intros Hd Hk Hdk. destruct (dict_of_lists (first :: rest)) as [m|e] eqn:Hm.
  - apply dict_of_lists_Ok in Hm as [_ Hm]. destruct (Hm k Hk) as [Hall _].
    rewrite Forall_forall in Hall. destruct (Hall d) as [? ?]; [by right | congruence].
  - by apply dict_of_lists_Raise in Hm as [-> _].
Qed.


(** ** The monad *)

Lemma foldl_grad_hook acc calls : foldl grad_hook acc calls = acc ++ calls.*1.
Proof.
  revert acc. induction calls as [|c calls IH]; intros acc; simpl.
  - by rewrite app_nil_r.
  - rewrite IH. unfold grad_hook. by rewrite <- app_assoc.
Qed.

Lemma loss_backward_prepared loss st :
  loss_backward loss (next_handle st) (prepared st)
  = match backward loss (prepared st) with
    | Ok pass => (Ok (hook_calls pass).*1,
                  set_accumulated_grads (param_grads pass) (prepared st))
    | Raise e => (Raise e, prepared st)
    end.
Proof.
  unfold loss_backward. destruct (backward loss (prepared st)) as [pass|e]; [|done].
  rewrite decide_True by (simpl; set_solver).
  by rewrite foldl_grad_hook.
Qed.

Lemma get_grads_unfold self texts st :
  is_T5ForTextToText (model self) = false →
  get_grads self texts st
  = (tokens ← lift (decode_tokens self (tokenize self texts));
     predictions ← _model_predict self (tokenize self texts);
     scores ← lift (as_tensor predictions);
     original_label ← lift (argmax_dim1 scores);
     loss ← lift (loss_fn self scores original_label);
     emb_grads ← loss_backward loss (next_handle st);
     grad ← lift (list_getitem emb_grads 0);
     grad ← lift (split_grad grad);
     modify (set_requires_grad (requires_grad st));;
     hook_remove (next_handle st);;
     mret {| tokens := tokens; ids := tokenize self texts; gradient := grad |})
    (prepared st).
Proof. intros H. unfold get_grads. rewrite H. reflexivity. Qed.

Lemma model_predict_reads self inputs st :
  ∃ r, _model_predict self inputs st = (r, st).
Proof. unfold _model_predict, reads. eauto. Qed.

(** ** Runs of [get_grads] that return *)

Lemma get_grads_Ok self texts st out st' :
  get_grads self texts st = (Ok out, st') ↔
  is_T5ForTextToText (model self) = false ∧
  ∃ scores labels loss pass raw more,
    decode_tokens self (tokenize self texts) = Ok (tokens out) ∧
    ids out = tokenize self texts ∧
    backward_trace self texts st scores labels loss pass ∧
    hook_calls pass = raw :: more ∧
    split_grad raw.1 = Ok (gradient out) ∧
    st' = restored st pass.
Proof.
  destruct (is_T5ForTextToText (model self)) eqn:Ht5.
  { unfold get_grads. rewrite Ht5. split; [done | by intros [? _]]. }
  rewrite get_grads_unfold by done. unfold backward_trace.
  unfold mbind at 1, M_bind at 1, lift at 1.
  destruct (decode_tokens self (tokenize self texts)) as [toks|e] eqn:Htok;
    [|split; [done | by intros (_&?&?&?&?&?&?&?&_)]].
  unfold mbind at 1, M_bind at 1.
  destruct (model_predict_reads self (tokenize self texts) (prepared st)) as [r Hr].
  rewrite Hr.
  destruct r as [predictions|e];
    [|split; [done | by intros (_&?&?&?&?&?&?&_&_&(?&_)&_)]].
  unfold mbind at 1, M_bind at 1, lift at 1.
  destruct predictions as [s|scores|l]; simpl as_tensor;
    [split; [done | by intros (_&?&?&?&?&?&?&_&_&(?&_)&_)]| |
     split; [done | by intros (_&?&?&?&?&?&?&_&_&(?&_)&_)]].
  unfold mbind at 1, M_bind at 1, lift at 1.
  destruct (argmax_dim1 scores) as [labels|e] eqn:Hlab;
    [|split; [done | intros (_&?&?&?&?&?&?&_&_&(?&?&_)&_); congruence]].
  unfold mbind at 1, M_bind at 1, lift at 1.
  destruct (loss_fn self scores labels) as [loss|e] eqn:Hloss;
    [|split; [done | intros (_&?&?&?&?&?&?&_&_&(?&?&?&_)&_); congruence]].
  unfold mbind at 1, M_bind at 1. rewrite loss_backward_prepared.
  destruct (backward loss (prepared st)) as [pass|e] eqn:Hback;
    [|split; [done | intros (_&?&?&?&?&?&?&_&_&(?&?&?&?)&_); congruence]].
  unfold mbind at 1, M_bind at 1, lift at 1.
  destruct (hook_calls pass) as [|raw more] eqn:Hcalls;
    [split; [done | intros (_&?&?&?&?&?&?&_&_&(?&?&?&?)&?&_); congruence]|].
  change (list_getitem ((raw :: more).*1) 0) with (Ok (A:=Tensor Q) raw.1).
  unfold mbind at 1, M_bind at 1, lift at 1.
  destruct (split_grad raw.1) as [grads|e] eqn:Hsplit.
  - change (_ = (Ok out, st')) with
      ((Ok {| tokens := toks; ids := tokenize self texts; gradient := grads |},
        restored st pass) = (Ok out, st')).
    split.
    + intros [= <- <-]. split; [done|].
      exists scores, labels, loss, pass, raw, more. by split_and!.
    + intros (_ & scores' & labels' & loss' & pass' & raw' & more' &
              Htok' & Hids & (Hp & Hl & Hlo & Hb) & Hc & Hs & ->).
      destruct out as [t i g]; simpl in *. simplify_eq.
      assert (labels' = labels) as -> by congruence.
      assert (loss' = loss) as -> by congruence.
      assert (pass' = pass) as -> by congruence.
      assert (raw' = raw) as -> by congruence.
      congruence.
  - split; [done|].
    intros (_ & scores' & labels' & loss' & pass' & raw' & more' &
            Htok' & Hids & (Hp & Hl & Hlo & Hb) & Hc & Hs & ->).
    simplify_eq.
    assert (labels' = labels) as -> by congruence.
    assert (loss' = loss) as -> by congruence.
    assert (pass' = pass) as -> by congruence.
    assert (raw' = raw) as -> by congruence.
    congruence.
Qed.

(** ** Runs of [get_grads] that raise *)

(** An exception raised after the type check leaves the state as it was
    prepared for the passes, up to the gradients a backward pass has
    accumulated: nothing undoes lines 70-81. *)
Lemma get_grads_Raise self texts st e st' :
  is_T5ForTextToText (model self) = false →
  get_grads self texts st = (Raise e, st') →
  st' = prepared st ∨
  ∃ pass, st' = set_accumulated_grads (param_grads pass) (prepared st).
Proof.
  intros Ht5. rewrite get_grads_unfold by done.
  unfold mbind at 1, M_bind at 1, lift at 1.
  destruct (decode_tokens self (tokenize self texts)) as [toks|e0];
    [|intros [= _ <-]; by left].
  unfold mbind at 1, M_bind at 1.
  destruct (model_predict_reads self (tokenize self texts) (prepared st)) as [r ->].
  destruct r as [predictions|e0]; [|intros [= _ <-]; by left].
  unfold mbind at 1, M_bind at 1, lift at 1.
  destruct (as_tensor predictions) as [scores|e0]; [|intros [= _ <-]; by left].
  unfold mbind at 1, M_bind at 1, lift at 1.
  destruct (argmax_dim1 scores) as [labels|e0]; [|intros [= _ <-]; by left].
  unfold mbind at 1, M_bind at 1, lift at 1.
  destruct (loss_fn self scores labels) as [loss|e0]; [|intros [= _ <-]; by left].
  unfold mbind at 1, M_bind at 1. rewrite loss_backward_prepared.
  destruct (backward loss (prepared st)) as [pass|e0]; [|intros [= _ <-]; by left].
  unfold mbind at 1, M_bind at 1, lift at 1.
  destruct (list_getitem (hook_calls pass).*1 0) as [raw|e0];
    [|intros [= _ <-]; right; by exists pass].
  unfold mbind at 1, M_bind at 1, lift at 1.
  destruct (split_grad raw) as [grads|e0]; [|intros [= _ <-]; right; by exists pass].
  done.
Qed.

Lemma get_grads_Raise_leaks self texts st e st' :
  is_T5ForTextToText (model self) = false →
  get_grads self texts st = (Raise e, st') →
  training st' = true ∧ requires_grad st' = true ∧
  next_handle st ∈ backward_hooks st'.
Proof.
  intros Ht5 H. destruct (get_grads_Raise _ _ _ _ _ Ht5 H) as [->|[pass ->]];
    simpl; split_and!; try done; set_solver.
Qed.

Lemma filter_fresh_handle (hooks : list nat) (h : nat) :
  Forall (λ h', h' < h) hooks → filter (λ h', h' ≠ h) (hooks ++ [h]) = hooks.
Proof.
  intros H. rewrite filter_app.
  rewrite filter_cons_False by (simpl; tauto). rewrite filter_nil, app_nil_r.
  induction H as [|h' hooks Hh' _ IH]; [done|].
  rewrite filter_cons_True by (simpl; lia). by rewrite IH.
Qed.

(** * The claims *)

(** ** Text-to-text models are refused before anything is touched *)



(** ** Training mode is entered and never left *)

(** C10: whenever [get_grads] returns, the model is in training mode,
    whatever its mode was before the call.  The earlier mode is not recorded
    and not put back: the passes run in training mode, and the call started
    in the other mode returns the same output and the same final state. *)
Theorem get_grads_leaves_training_mode self texts st out st' :
  get_grads self texts st = (Ok out, st') →
  training st' = true ∧
  training (prepared st) = true ∧
  ∀ mode, get_grads self texts (set_training mode st) = (Ok out, st').
Proof.
  intros H. pose proof H as Hinv. apply get_grads_Ok in Hinv
    as (Ht5 & ? & ? & ? & ? & ? & ? & _ & _ & _ & _ & _ & ->).
  split; [done|]. split; [done|]. intros mode.
  rewrite get_grads_unfold in H |- * by done. exact H.
Qed.

Lemma get_grads_leaves_training_mode_witness :
  training Toy.st0 = false ∧
  ∃ out st', get_grads Toy.classifier Toy.texts Toy.st0 = (Ok out, st') ∧
             training st' = true.
Proof.
  split; [reflexivity|]. eexists _, _. split; [vm_compute; reflexivity|].
  eapply (get_grads_leaves_training_mode Toy.classifier Toy.texts Toy.st0).
  vm_compute. reflexivity.
Defined.

(** ** Tokens are decoded from each text's own ids *)

(** C8: in the output of [get_grads], the [i]-th entry of [ids] is the
    EncodedInput of the [i]-th text and the [i]-th entry of [tokens] is
    [convert_ids_to_tokens] applied to the ["input_ids"] of that very
    EncodedInput. *)
Theorem get_grads_tokens_roundtrip self texts st out st' :
  get_grads self texts st = (Ok out, st') →
  ids out = tokenize self texts ∧
  length (tokens out) = length texts ∧
  ∀ i text, texts !! i = Some text →
    ∃ input_ids,
      ids out !! i = Some (encode (tokenizer self) text) ∧
      encode (tokenizer self) text !! "input_ids" = Some input_ids ∧
      tokens out !! i = Some (convert_ids_to_tokens (tokenizer self) input_ids).
Proof.
  intros (_ & ? & ? & ? & ? & ? & ? & Htok & Hids & _)%get_grads_Ok.
  split; [done|]. split.
  { apply list_comprehension_length in Htok. rewrite Htok. unfold tokenize.
    by rewrite length_fmap. }
  intros i text Hi. apply list_comprehension_Ok in Htok.
  assert (Hid : tokenize self texts !! i = Some (encode (tokenizer self) text)).
  { unfold tokenize. by rewrite list_lookup_fmap, Hi. }
  destruct (Forall2_lookup_l _ _ _ _ _ Htok Hid) as (toks & Htoks & Hdec).
  unfold dict_getitem in Hdec.
  destruct (encode (tokenizer self) text !! "input_ids") as [input_ids|] eqn:Hk;
    simplify_eq/=.
  exists input_ids. rewrite Hids. done.
Qed.

Lemma get_grads_tokens_roundtrip_witness :
  ∃ out st', get_grads Toy.classifier Toy.texts Toy.st0 = (Ok out, st') ∧
    tokens out !! 1
    = Some (convert_ids_to_tokens Toy.tok [101; 3; 102]%Z).
Proof.
  eexists _, _. split; [vm_compute; reflexivity|].
  destruct (get_grads_tokens_roundtrip Toy.classifier Toy.texts Toy.st0 _ _
              ltac:(vm_compute; reflexivity)) as (_ & _ & H).
  destruct (H 1 "bad" eq_refl) as (input_ids & _ & Hk & ->).
  vm_compute in Hk. by injection Hk as <-.
Defined.

(** ** Cleanup happens on the returning path only *)

(** A run that returns puts the [requires_grad] flag back and no longer
    has its hook registered; with fresh handles the hook list is the one
    from before the call. *)
Lemma get_grads_Ok_restores self texts st out st' :
  get_grads self texts st = (Ok out, st') →
  requires_grad st' = requires_grad st ∧
  (next_handle st ∉ backward_hooks st') ∧
  (handles_fresh st → backward_hooks st' = backward_hooks st).
Proof.
  intros (_ & ? & ? & ? & ? & ? & ? & _ & _ & _ & _ & _ & ->)%get_grads_Ok.
  simpl. split_and!; [done| |apply filter_fresh_handle].
  intros [? _]%list_elem_of_filter. done.
Qed.

(** The empty input list reaches [inputs[0]] with the hook registered. *)
Lemma get_grads_nil self st :
  is_T5ForTextToText (model self) = false →
  get_grads self [] st = (Raise IndexError, prepared st).
Proof. intros H. rewrite get_grads_unfold by done. reflexivity. Qed.

(** C2: the claim asks for the [requires_grad] flag to be put back and the
    hook to be removed on every exit path.  Two runs on a classifier whose
    embedding weight is frozen and carries no hook: one with the empty input
    list, where [inputs[0]] raises, one where the forward pass raises.  Both
    exceptions leave the flag set and the hook registered. *)
Theorem get_grads_exception_skips_cleanup :
  requires_grad Toy.st0 = false ∧ backward_hooks Toy.st0 = [] ∧
  (∃ st', get_grads Toy.classifier [] Toy.st0 = (Raise IndexError, st') ∧
          requires_grad st' = true ∧ backward_hooks st' = [0]) ∧
  (∃ st', get_grads Toy.failing Toy.texts Toy.st0 = (Raise RuntimeError, st') ∧
          requires_grad st' = true ∧ backward_hooks st' = [0]).
Proof.
  split_and!; [reflexivity | reflexivity | |];
    eexists; (split; [vm_compute; reflexivity | split; reflexivity]).
Qed.

(** ** Leaving the [with] block *)


(** ** What the per-batch step returns *)

Lemma model_predict_answered self inputs st input_dict tensors outputs first :
  dict_of_lists inputs = Ok input_dict →
  dict_of_tensors input_dict = Ok tensors →
  forward (model self) st tensors = Ok outputs →
  outputs !! 0 = Some first →
  _model_predict self inputs st
  = (Ok (if isinstance_str first then VSeq outputs else first), st).
Proof.
  intros H1 H2 H3 H4. unfold _model_predict, reads, list_getitem.
  rewrite H1. simpl. rewrite H2. simpl. rewrite H3. simpl. rewrite H4. simpl.
  by destruct (isinstance_str first).
Qed.

(** C5: once the model has answered, [_model_predict] returns the whole
    output list when its first element is a string, and the first element
    alone otherwise; the state is not changed. *)
Theorem model_predict_output self inputs st input_dict tensors outputs first :
  dict_of_lists inputs = Ok input_dict →
  dict_of_tensors input_dict = Ok tensors →
  forward (model self) st tensors = Ok outputs →
  outputs !! 0 = Some first →
  (isinstance_str first = true →
     _model_predict self inputs st = (Ok (VSeq outputs), st)) ∧
  (isinstance_str first = false →
     _model_predict self inputs st = (Ok first, st)).
Proof.
  intros H1 H2 H3 H4.
  rewrite (model_predict_answered _ _ _ _ _ _ _ H1 H2 H3 H4).
  split; intros ->; done.
Qed.

Lemma model_predict_output_witness :
  _model_predict Toy.t5 (tokenize Toy.t5 Toy.texts) Toy.st0
    = (Ok (VSeq [VStr "ein Film"; VStr "ein Film"]), Toy.st0) ∧
  _model_predict Toy.classifier (tokenize Toy.classifier Toy.texts) Toy.st0
    = (Ok (VTensor (mkTensor [2; 3] [101; 10; 102; 101; 3; 102]%Q)), Toy.st0).
Proof.
  split.
  - eapply (model_predict_output Toy.t5 (tokenize Toy.t5 Toy.texts) Toy.st0
              _ _ [VStr "ein Film"; VStr "ein Film"] (VStr "ein Film"));
      [vm_compute; reflexivity | vm_compute; reflexivity
      | vm_compute; reflexivity | reflexivity | reflexivity].
  - eapply (model_predict_output Toy.classifier (tokenize Toy.classifier Toy.texts)
              Toy.st0 _ _ [VTensor (mkTensor [2; 3] [101; 10; 102; 101; 3; 102]%Q)]);
      [vm_compute; reflexivity | vm_compute; reflexivity
      | vm_compute; reflexivity | reflexivity | reflexivity].
Defined.

(** ** Mappings with different field names *)

(** C6 (as stated, refuted): two encodings that do not share their field
    names are transposed without any error; the attention mask of the second
    is absent from the result, and the forward pass runs on what is left. *)
Lemma transposition_drops_field_counterexample :
  ∃ e1 e2 m v,
    Toy.ragged = [e1; e2] ∧ dom e1 ≠ dom e2 ∧
    is_Some (e2 !! "attention_mask") ∧
    dict_of_lists Toy.ragged = Ok m ∧ m !! "attention_mask" = None ∧
    _model_predict Toy.classifier Toy.ragged Toy.st0 = (Ok v, Toy.st0).
Proof.
  eexists _, _, _, _. split; [reflexivity|]. split.
  { intros Heq.
    assert (H : "attention_mask" ∈ dom ({[ "input_ids" := [101; 7; 102]%Z ]}
                                         : gmap string (list Z))).
    { rewrite Heq. apply elem_of_dom. eexists. vm_compute. reflexivity. }
    apply elem_of_dom in H as [x H]. vm_compute in H. discriminate. }
  split; [eexists; vm_compute; reflexivity|].
  split; [vm_compute; reflexivity|].
  split; vm_compute; reflexivity.
Qed.

(** C6 (amended): on a non-empty list the transposition raises exactly
    when a later mapping lacks a field name of the first mapping, and then it
    raises [KeyError]; when it returns, the result has the field names of the
    first mapping and nothing else, each with the column of its values in
    input order. *)
Theorem dict_of_lists_fails_iff first rest :
  (raises (dict_of_lists (first :: rest)) ↔
     ∃ d k, d ∈ rest ∧ is_Some (first !! k) ∧ d !! k = None) ∧
  (∀ e, dict_of_lists (first :: rest) = Raise e → e = KeyError) ∧
  (∀ m, dict_of_lists (first :: rest) = Ok m →
     dom m = dom first ∧
     ∀ k, is_Some (first !! k) →
          m !! k = Some ((λ d, default [] (d !! k)) <$> first :: rest)).
Proof.
  split_and!.
  - split.
    + intros [e He]. by apply dict_of_lists_Raise in He as [_ ?].
    + intros (d & k & Hd & Hk & Hdk). exists KeyError.
      by eapply dict_of_lists_Raise_intro.
  - intros e He. by apply dict_of_lists_Raise in He as [? _].
  - intros m Hm. apply dict_of_lists_Ok in Hm as [Hdom Hm].
    split; [done|]. intros k Hk. by destruct (Hm k Hk).
Qed.

(** ** Blocks of a row-major tensor *)

Lemma block_0_app {A} (r l : list A) n : length r = n → block n 0 (r ++ l) = r.
Proof. intros <-. unfold block. by rewrite Nat.mul_0_l, drop_0, take_app_length. Qed.

Lemma block_S_app {A} (r l : list A) n i :
  length r = n → block n (S i) (r ++ l) = block n i l.
Proof.
  intros <-. unfold block. f_equal.
  replace (S i * length r) with (length r + i * length r) by lia.
  by rewrite drop_app_add.
Qed.

Lemma block_concat {A} n (rows : list (list A)) j :
  Forall (λ r, length r = n) rows →
  block n j (concat rows) = default (take n []) (rows !! j).
Proof.
  intros H. revert j. induction H as [|r rows Hr _ IH]; intros j; simpl.
  - unfold block. by rewrite drop_nil.
  - destruct j as [|j]; simpl.
    + by rewrite block_0_app.
    + by rewrite block_S_app.
Qed.


Lemma length_block {A} n i (l : list A) :
  (S i) * n ≤ length l → length (block n i l) = n.
Proof. intros H. unfold block. rewrite length_take, length_drop. lia. Qed.


Lemma length_concat_uniform {A} n (rows : list (list A)) :
  Forall (λ r, length r = n) rows → length (concat rows) = length rows * n.
Proof.
  induction 1 as [|r rows Hr _ IH]; simpl; [done|].
  rewrite length_app, IH, Hr. lia.
Qed.

(** ** Splitting the captured gradient *)

Lemma length_gather s0 s1 p j d :
  length d = s0 * (s1 * p) → j < s1 → length (gather s0 s1 p j d) = s0 * p.
Proof.
  intros Hd Hj. unfold gather. rewrite (length_concat_uniform p).
  - by rewrite length_fmap, length_seq.
  - apply Forall_fmap, Forall_forall. intros i [_ Hi]%elem_of_seq. simpl.
    apply length_block. rewrite Hd, Nat.mul_assoc.
    apply Nat.mul_le_mono_r. nia.
Qed.

Lemma split_grad_spec raw :
  (2 < length (shape raw) →
     ∃ s0 s1 rest grads,
       shape raw = s0 :: s1 :: rest ∧ split_grad raw = Ok grads ∧
       length grads = s1 ∧
       ∀ j, j < s1 →
         ∃ g, grads !! j = Some g ∧ shape g = s0 :: rest ∧
              (length (data raw) = numel (shape raw) →
               data g = gather s0 s1 (numel rest) j (data raw))) ∧
  (length (shape raw) ≤ 2 → split_grad raw = Ok [raw]).
Proof.
  unfold split_grad. split.
  - intros Hdim. rewrite (proj2 (Nat.ltb_lt _ _) Hdim).
    destruct raw as [[|s0 [|s1 rest]] d]; simpl in Hdim; try lia.
    exists s0, s1, rest. eexists. split; [done|]. split; [reflexivity|].
    split; [by rewrite length_fmap, length_seq|].
    intros j Hj. eexists. split.
    { rewrite list_lookup_fmap, lookup_seq_lt by done. reflexivity. }
    split; [done|]. simpl. intros Hd.
    change (concat _) with
      (concat ((λ j, gather s0 s1 (numel rest) j d) <$> seq 0 s1)).
    rewrite (block_concat (s0 * numel rest)).
    + by rewrite list_lookup_fmap, lookup_seq_lt.
    + apply Forall_fmap, Forall_forall. intros j' [_ Hj']%elem_of_seq. simpl.
      by apply length_gather.
  - intros Hdim. by rewrite (proj2 (Nat.ltb_ge _ _) Hdim).
Qed.




(** ** The labels are the arg-max of the scores *)

Lemma argmax_from_spec pre bi b l :
  pre !! bi = Some b →
  (∀ k x, pre !! k = Some x → (x <= b)%Q ∧ (k < bi → (x < b)%Q)) →
  ∃ best, (pre ++ l) !! argmax_from bi b (length pre) l = Some best ∧
    ∀ k x, (pre ++ l) !! k = Some x →
      (x <= best)%Q ∧ (k < argmax_from bi b (length pre) l → (x < best)%Q).
Proof.
  revert pre bi b. induction l as [|a l IH]; intros pre bi b Hbi Hpre; simpl.
  - rewrite app_nil_r. eauto.
  - assert (Hlen : length (pre ++ [a]) = S (length pre))
      by (rewrite length_app; simpl; lia).
    destruct (Qlt_le_dec b a) as [Hlt|Hle].
    + specialize (IH (pre ++ [a]) (length pre) a).
      rewrite Hlen, <- app_assoc in IH. apply IH.
      * by apply list_lookup_middle.
      * intros k x [Hk|[Hge Hk]]%lookup_app_Some.
        -- destruct (Hpre k x Hk) as [Hx _].
           split; [apply Qlt_le_weak|intros _]; by eapply Qle_lt_trans.
        -- destruct (k - length pre) as [|?] eqn:Hkl; simplify_eq/=.
           split; [apply Qle_refl | lia].
    + specialize (IH (pre ++ [a]) bi b).
      rewrite Hlen, <- app_assoc in IH. apply IH.
      * by apply lookup_app_l_Some.
      * intros k x [Hk|[Hge Hk]]%lookup_app_Some; [by apply Hpre|].
        destruct (k - length pre) as [|?] eqn:Hkl; simplify_eq/=.
        split; [done|]. apply lookup_lt_Some in Hbi. lia.
Qed.

Lemma argmax_list_spec l :
  l ≠ [] →
  ∃ best, l !! argmax_list l = Some best ∧
    ∀ k x, l !! k = Some x → (x <= best)%Q ∧ (k < argmax_list l → (x < best)%Q).
Proof.
  destruct l as [|a l]; [done|]. intros _. unfold argmax_list.
  apply (argmax_from_spec [a] 0 a l); [done|].
  intros [|k] x Hk; simplify_eq/=. split; [apply Qle_refl | lia].
Qed.

Lemma lane_lookup s1 p d i r k :
  k < s1 → lane s1 p d i r !! k = Some (default 0%Q (d !! ((i * s1 + k) * p + r))).
Proof. intros H. unfold lane. by rewrite list_lookup_fmap, lookup_seq_lt. Qed.

Lemma length_lane s1 p d i r : length (lane s1 p d i r) = s1.
Proof. unfold lane. by rewrite length_fmap, length_seq. Qed.

Lemma concat_singletons {A B} (f : A → B) (l : list A) :
  concat ((λ x, [f x]) <$> l) = f <$> l.
Proof. induction l as [|x l IH]; simpl; [done | f_equal; exact IH]. Qed.

Lemma argmax_dim1_matrix n c d labels :
  argmax_dim1 (mkTensor [n; c] d) = Ok labels →
  c ≠ 0 ∧
  labels = mkTensor [n] ((λ i, Z.of_nat (argmax_list (lane c 1 d i 0))) <$> seq 0 n).
Proof.
  unfold argmax_dim1. simpl. destruct (Nat.eqb_spec c 0) as [->|Hc]; [done|].
  intros [= <-]. split; [done|]. f_equal.
  apply (concat_singletons (λ i, Z.of_nat (argmax_list (lane c 1 d i 0)))).
Qed.

(** On an [n] by [c] score matrix, label [i] is the first index of a
    largest entry of row [i]. *)
Lemma argmax_dim1_rows scores labels n c :
  argmax_dim1 scores = Ok labels →
  shape scores = [n; c] → length (data scores) = n * c →
  shape labels = [n] ∧
  ∀ i, i < n →
    ∃ j best,
      data labels !! i = Some (Z.of_nat j) ∧ j < c ∧
      data scores !! (i * c + j) = Some best ∧
      ∀ k x, data scores !! (i * c + k) = Some x → k < c →
             (x <= best)%Q ∧ (k < j → (x < best)%Q).
Proof.
  destruct scores as [sh d]. simpl. intros Hlab -> Hd.
  apply argmax_dim1_matrix in Hlab as [Hc ->]. simpl. split; [done|].
  intros i Hi.
  assert (Hin : ∀ k, k < c → is_Some (d !! (i * c + k))).
  { intros k Hk. apply lookup_lt_is_Some_2. nia. }
  assert (Hlane : ∀ k, k < c → lane c 1 d i 0 !! k = d !! (i * c + k)).
  { intros k Hk. rewrite lane_lookup by done.
    replace ((i * c + k) * 1 + 0) with (i * c + k) by lia.
    destruct (Hin k Hk) as [x ->]. done. }
  destruct (argmax_list_spec (lane c 1 d i 0)) as (best & Hbest & Hmax).
  { intros Hnil. pose proof (length_lane c 1 d i 0) as Hl. rewrite Hnil in Hl.
    simpl in Hl. lia. }
  assert (Hj : argmax_list (lane c 1 d i 0) < c).
  { apply lookup_lt_Some in Hbest. by rewrite length_lane in Hbest. }
  exists (argmax_list (lane c 1 d i 0)), best. split_and!.
  - by rewrite list_lookup_fmap, lookup_seq_lt.
  - done.
  - by rewrite <- Hlane.
  - intros k x Hx Hk. apply Hmax. by rewrite Hlane.
Qed.

(** C9: in a run that returns, the scores are those of the one forward
    pass on all encoded texts, the labels are their arg-max along dimension 1
    (on a score matrix: for each example the first index of a largest entry
    of its row), the loss is the configured loss function applied to these
    scores and these labels, and the gradient returned is split from what the
    backward pass of that very loss delivers to the hook. *)
Theorem get_grads_uses_argmax_labels self texts st out st' :
  get_grads self texts st = (Ok out, st') →
  ∃ scores labels loss pass raw,
    _model_predict self (tokenize self texts) (prepared st)
      = (Ok (VTensor scores), prepared st) ∧
    argmax_dim1 scores = Ok labels ∧
    loss_fn self scores labels = Ok loss ∧
    backward loss (prepared st) = Ok pass ∧
    (hook_calls pass).*1 !! 0 = Some raw ∧
    split_grad raw = Ok (gradient out) ∧
    ∀ n c, shape scores = [n; c] → length (data scores) = n * c →
      shape labels = [n] ∧
      ∀ i, i < n →
        ∃ j best,
          data labels !! i = Some (Z.of_nat j) ∧ j < c ∧
          data scores !! (i * c + j) = Some best ∧
          ∀ k x, data scores !! (i * c + k) = Some x → k < c →
                 (x <= best)%Q ∧ (k < j → (x < best)%Q).
Proof.
  intros (_ & scores & labels & loss & pass & raw & more &
          _ & _ & (Hp & Hl & Hlo & Hb) & Hcalls & Hsplit & _)%get_grads_Ok.
  exists scores, labels, loss, pass, raw.1.
  split_and!; try done.
  - by rewrite Hcalls.
  - intros n c Hshape Hlen. by eapply argmax_dim1_rows.
Qed.

Lemma get_grads_uses_argmax_labels_witness :
  ∃ out st',
    get_grads Toy.classifier Toy.texts Toy.st0 = (Ok out, st') ∧
    argmax_dim1 (mkTensor [2; 3] [101; 10; 102; 101; 3; 102]%Q)
    = Ok (mkTensor [2] [2; 2]%Z).
Proof.
  eexists _, _. split; [vm_compute; reflexivity|].
  destruct (get_grads_uses_argmax_labels Toy.classifier Toy.texts Toy.st0 _ _
              ltac:(vm_compute; reflexivity))
    as (scores & labels & loss & pass & raw & Hp & Hl & _).
  vm_compute in Hp. injection Hp as <-.
  rewrite Hl. vm_compute in Hl. injection Hl as <-. reflexivity.
Defined.

(** ** Batching *)













(** * Further properties of the wrapper *)

(** ** A normal form for [get_grads] *)

Lemma result_bind_Ok {A B} (x : A) (f : A → result B) : Ok x ≫= f = f x.
Proof. reflexivity. Qed.

Lemma get_grads_normal_form self texts st :
  is_T5ForTextToText (model self) = false →
  get_grads self texts st
  = match forward_backward self texts st with
    | Raise e => (Raise e, prepared st)
    | Ok (toks, pass) =>
        match captured_split pass with
        | Raise e => (Raise e, set_accumulated_grads (param_grads pass) (prepared st))
        | Ok grads =>
            (Ok {| tokens := toks; ids := tokenize self texts; gradient := grads |},
             restored st pass)
        end
    end.
Proof.
  intros Ht5. rewrite get_grads_unfold by done.
  unfold forward_backward, captured_split.
  unfold mbind at 1, M_bind at 1, lift at 1.
  destruct (decode_tokens self (tokenize self texts)) as [toks|e]; [|done].
  rewrite result_bind_Ok.
  unfold mbind at 1, M_bind at 1.
  destruct (model_predict_reads self (tokenize self texts) (prepared st)) as [r ->].
  destruct r as [predictions|e]; [|done].
  cbn [fst]. rewrite result_bind_Ok.
  unfold mbind at 1, M_bind at 1, lift at 1.
  destruct (as_tensor predictions) as [scores|e]; [|done].
  rewrite result_bind_Ok.
  unfold mbind at 1, M_bind at 1, lift at 1.
  destruct (argmax_dim1 scores) as [labels|e]; [|done].
  rewrite result_bind_Ok.
  unfold mbind at 1, M_bind at 1, lift at 1.
  destruct (loss_fn self scores labels) as [loss|e]; [|done].
  rewrite result_bind_Ok.
  unfold mbind at 1, M_bind at 1. rewrite loss_backward_prepared.
  destruct (backward loss (prepared st)) as [pass|e]; [|done].
  rewrite result_bind_Ok.
  unfold mbind at 1, M_bind at 1, lift at 1.
  destruct (list_getitem (hook_calls pass).*1 0) as [raw|e]; [|done].
  rewrite result_bind_Ok.
  unfold mbind at 1, M_bind at 1, lift at 1.
  destruct (split_grad raw) as [grads|e]; done.
Qed.

(** ** What [_model_predict] hands to the model *)

Lemma torch_tensor_cons r v :
  torch_tensor (r :: v)
  = if forallb (λ r', length r' =? length r) (r :: v)
    then Ok (mkTensor [S (length v); length r] (concat (r :: v)))
    else Raise ValueError.
Proof. reflexivity. Qed.

Lemma forallb_same_length (n : nat) (v : list (list Z)) :
  forallb (λ r', length r' =? n) v = true ↔ Forall (λ r', length r' = n) v.
Proof.
  rewrite forallb_forall, Forall_forall. split; intros H r Hr.
  - apply Nat.eqb_eq, H. by apply list_elem_of_In.
  - apply Nat.eqb_eq, H. by apply list_elem_of_In.
Qed.



(** X1: when every mapping of the batch has exactly the field names of the
    first one, the transposition succeeds and loses nothing: the value of
    field [k] for input [i] is found at position [i] of column [k], so every
    input mapping can be read back from the result. *)
Theorem dict_of_lists_lossless first rest :
  Forall (λ d : gmap string (list Z), dom d = dom first) rest →
  ∃ m, dict_of_lists (first :: rest) = Ok m ∧
       ∀ i d, (first :: rest) !! i = Some d →
              ∀ k, d !! k = m !! k ≫= (λ col, col !! i).
Proof.
  intros Hdom.
  assert (Hall : ∀ d, d ∈ first :: rest → dom d = dom first).
  { intros d [->|Hd]%elem_of_cons; [done|]. rewrite Forall_forall in Hdom. auto. }
  destruct (dict_of_lists (first :: rest)) as [m|e] eqn:Hm.
  2:{ apply dict_of_lists_Raise in Hm as (_ & d & k & Hd & Hk & Hdk).
      apply elem_of_dom in Hk. rewrite <- (Hall d) in Hk by (by right).
      apply elem_of_dom in Hk as [? ?]. congruence. }
  exists m. split; [done|]. intros i d Hi k.
  apply dict_of_lists_Ok in Hm as [Hdm Hm].
  assert (Hd : dom d = dom first) by (eapply Hall, list_elem_of_lookup_2, Hi).
  destruct (first !! k) as [v|] eqn:Hk.
  - destruct (Hm k) as [_ ->]; [by rewrite Hk|].
    change (d !! k
            = ((λ d : gmap string (list Z), default [] (d !! k)) <$> first :: rest) !! i).
    rewrite list_lookup_fmap, Hi. simpl.
    assert (is_Some (d !! k)) as [w ->]; [|done].
    apply elem_of_dom. rewrite Hd. apply elem_of_dom. eauto.
  - assert (d !! k = None) as ->.
    { apply not_elem_of_dom. rewrite Hd. by apply not_elem_of_dom. }
    assert (m !! k = None) as ->; [|done].
    apply not_elem_of_dom. rewrite Hdm. by apply not_elem_of_dom.
Qed.

Lemma dict_of_lists_lossless_witness :
  ∃ m, dict_of_lists (tokenize Toy.classifier Toy.texts) = Ok m ∧
       m !! "input_ids" ≫= (λ col, col !! 1) = Some [101; 3; 102]%Z.
Proof.
  destruct (dict_of_lists_lossless (encode Toy.tok "good movie")
              [encode Toy.tok "bad"]) as (m & Hm & Hget).
  - repeat constructor.
  - exists m. split; [exact Hm|].
    rewrite <- (Hget 1 (encode Toy.tok "bad") eq_refl "input_ids").
    vm_compute. reflexivity.
Defined.

Lemma input_tensors_shape first rest m tensors :
  dict_of_lists (first :: rest) = Ok m →
  dict_of_tensors m = Ok tensors →
  dom tensors = dom first ∧
  ∀ k v, first !! k = Some v →
    ∃ t, tensors !! k = Some t ∧
         shape t = [S (length rest); length v] ∧
         data t = concat ((λ d, default [] (d !! k)) <$> first :: rest) ∧
         length (data t) = numel (shape t).
Proof.
  intros Hm Ht. apply dict_of_lists_Ok in Hm as [Hdm Hm]. split.
  { unfold dict_of_tensors in Ht. apply dict_comprehension_dom in Ht. congruence. }
  intros k v Hk. destruct (Hm k) as [_ Hmk]; [by rewrite Hk|].
  pose proof (dict_comprehension_Ok_inv _ _ _ k Ht) as Htk. rewrite Hmk in Htk.
  destruct Htk as (t & Htensor & ->). exists t. split; [done|].
  rewrite fmap_cons, Hk in Htensor. simpl default in Htensor.
  rewrite torch_tensor_cons in Htensor.
  destruct (forallb _ _) eqn:Hlen; [|done]. injection Htensor as <-.
  apply forallb_same_length in Hlen.
  cbn [shape data]. split_and!.
  - by rewrite length_fmap.
  - by rewrite fmap_cons, Hk.
  - change (v ++ concat ?l) with (concat (v :: l)).
    rewrite (length_concat_uniform (length v)) by done.
    cbn [length numel foldr]. lia.
Qed.

(** X2: every tensor handed to the model has the number of inputs as its
    first dimension and the length of the field as its second; it holds the
    values of that field input after input, and the keyword arguments are
    exactly the field names of the first mapping. *)
Theorem model_kwargs_shape first rest m tensors :
  dict_of_lists (first :: rest) = Ok m →
  dict_of_tensors m = Ok tensors →
  dom tensors = dom first ∧
  ∀ k v, first !! k = Some v →
    ∃ t, tensors !! k = Some t ∧
         shape t = [S (length rest); length v] ∧
         data t = concat ((λ d, default [] (d !! k)) <$> first :: rest) ∧
         length (data t) = numel (shape t).
Proof. apply input_tensors_shape. Qed.

Lemma model_kwargs_shape_witness :
  ∃ m tensors,
    dict_of_lists (tokenize Toy.classifier Toy.texts) = Ok m ∧
    dict_of_tensors m = Ok tensors ∧
    ∃ t, tensors !! "attention_mask" = Some t ∧ shape t = [2; 3].
Proof.
  eexists _, _. split; [vm_compute; reflexivity|]. split; [vm_compute; reflexivity|].
  destruct (model_kwargs_shape (encode Toy.tok "good movie") [encode Toy.tok "bad"]
              _ _ ltac:(vm_compute; reflexivity) ltac:(vm_compute; reflexivity))
    as [_ H].
  destruct (H "attention_mask" [1; 1; 1]%Z ltac:(vm_compute; reflexivity))
    as (t & Ht & Hs & _).
  exists t. split; [exact Ht | exact Hs].
Defined.

(** ** Every way [_model_predict] can fail *)






(** ** Where [get_grads] stops *)

Lemma decode_tokens_Raise self ids e : decode_tokens self ids = Raise e → e = KeyError.
Proof.
  intros (x & _ & Hx)%list_comprehension_Raise. unfold dict_getitem in Hx.
  by destruct (x !! "input_ids"); simplify_eq/=.
Qed.

Lemma decode_tokens_Ok self (ids : list (gmap string (list Z))) :
  Forall (λ e, is_Some (e !! "input_ids")) ids ↔ ∃ toks, decode_tokens self ids = Ok toks.
Proof.
  split.
  - intros H. eexists. apply list_comprehension_fmap with
      (g := λ e : gmap string (list Z),
              convert_ids_to_tokens (tokenizer self) (default [] (e !! "input_ids"))).
    eapply Forall_impl; [exact H|]. simpl. intros e [v Hv].
    unfold dict_getitem. by rewrite Hv.
  - intros [toks Htoks]. apply list_comprehension_Ok in Htoks.
    apply Forall_forall. intros e [i Hi]%list_elem_of_lookup_1.
    destruct (Forall2_lookup_l _ _ _ _ _ Htoks Hi) as (t & _ & Ht).
    unfold dict_getitem in Ht. destruct (e !! "input_ids"); [eauto | done].
Qed.

Lemma forward_backward_trace self texts st toks scores labels loss pass :
  decode_tokens self (tokenize self texts) = Ok toks →
  backward_trace self texts st scores labels loss pass →
  forward_backward self texts st = Ok (toks, pass).
Proof.
  intros Htoks (Hp & Hl & Hlo & Hb). unfold forward_backward.
  rewrite Htoks, result_bind_Ok, Hp. cbn [fst]. rewrite result_bind_Ok.
  cbn [as_tensor]. rewrite result_bind_Ok, Hl, result_bind_Ok, Hlo, result_bind_Ok, Hb.
  reflexivity.
Qed.

(** X4: on the empty list, [get_grads] of any model that is not refused
    raises [IndexError] (from [inputs[0]] in [_model_predict]) without running
    the model, after it has switched to training mode, made the embedding
    weight trainable, registered its hook and cleared the gradients. *)
Theorem get_grads_empty_input self st :
  is_T5ForTextToText (model self) = false →
  get_grads self [] st = (Raise IndexError, prepared st).
Proof. intros Ht5. by rewrite get_grads_normal_form. Qed.

Lemma get_grads_empty_input_witness :
  get_grads Toy.failing [] Cases.st1
  = (Raise IndexError, mkState true true true [4; 7] 8 []).
Proof. apply (get_grads_empty_input Toy.failing Cases.st1). reflexivity. Defined.

(** X5: for a model that is not of the refused class, when the encoding
    of one of the texts has no ["input_ids"] field, [get_grads] raises
    [KeyError] at line 84, before the forward pass: the forward pass, the loss
    and the backward pass are never reached, whatever they would do. *)
Theorem get_grads_missing_input_ids self texts st text :
  is_T5ForTextToText (model self) = false →
  text ∈ texts →
  encode (tokenizer self) text !! "input_ids" = None →
  get_grads self texts st = (Raise KeyError, prepared st).
Proof.
  intros Ht5 Htext Hnone. rewrite get_grads_normal_form by done.
  unfold forward_backward.
  destruct (decode_tokens self (tokenize self texts)) as [toks|e] eqn:Hd.
  - exfalso. assert (Hall : ∃ toks, decode_tokens self (tokenize self texts) = Ok toks)
      by eauto.
    apply decode_tokens_Ok in Hall. rewrite Forall_forall in Hall.
    destruct (Hall (encode (tokenizer self) text)) as [? ?]; [|congruence].
    unfold tokenize. apply list_elem_of_fmap. eauto.
  - by rewrite (decode_tokens_Raise _ _ _ Hd).
Qed.

Lemma get_grads_missing_input_ids_witness :
  get_grads Cases.no_input_ids Toy.texts Toy.st0
  = (Raise KeyError, prepared Toy.st0).
Proof.
  apply (get_grads_missing_input_ids Cases.no_input_ids Toy.texts Toy.st0 "bad").
  - reflexivity.
  - right. by left.
  - vm_compute. reflexivity.
Defined.

(** X6: when the first output of the model is a string, [_model_predict]
    returns the output list, which has no [argmax]: [get_grads] raises
    [AttributeError] at line 87, with its hook still registered. *)
Theorem get_grads_string_outputs self texts st m tensors outputs s :
  is_T5ForTextToText (model self) = false →
  Forall (λ e, is_Some (e !! "input_ids")) (tokenize self texts) →
  dict_of_lists (tokenize self texts) = Ok m →
  dict_of_tensors m = Ok tensors →
  forward (model self) (prepared st) tensors = Ok outputs →
  outputs !! 0 = Some (VStr s) →
  get_grads self texts st = (Raise AttributeError, prepared st).
Proof.
  intros Ht5 [toks Htoks]%(decode_tokens_Ok self) Hm Ht Hf H0.
  rewrite get_grads_normal_form by done. unfold forward_backward.
  rewrite Htoks, result_bind_Ok.
  rewrite (model_predict_answered _ _ _ _ _ _ _ Hm Ht Hf H0). reflexivity.
Qed.

Lemma get_grads_string_outputs_witness :
  get_grads Cases.generator Toy.texts Toy.st0
  = (Raise AttributeError, prepared Toy.st0).
Proof.
  eapply (get_grads_string_outputs Cases.generator Toy.texts Toy.st0 _ _
            [VStr "ein Film"; VStr "ein Film"] "ein Film").
  - reflexivity.
  - repeat constructor; eexists; vm_compute; reflexivity.
  - vm_compute. reflexivity.
  - vm_compute. reflexivity.
  - vm_compute. reflexivity.
  - reflexivity.
Defined.

(** X7: when the backward pass succeeds without ever invoking the hook,
    [emb_grads] is empty and [get_grads] raises [IndexError] at line 93; the
    gradients of that backward pass stay accumulated in the parameters. *)
Theorem get_grads_hook_not_invoked self texts st scores labels loss pass :
  is_T5ForTextToText (model self) = false →
  Forall (λ e, is_Some (e !! "input_ids")) (tokenize self texts) →
  backward_trace self texts st scores labels loss pass →
  hook_calls pass = [] →
  get_grads self texts st
  = (Raise IndexError, set_accumulated_grads (param_grads pass) (prepared st)).
Proof.
  intros Ht5 [toks Htoks]%(decode_tokens_Ok self) Htrace Hcalls.
  rewrite get_grads_normal_form by done.
  rewrite (forward_backward_trace _ _ _ _ _ _ _ _ Htoks Htrace).
  unfold captured_split. by rewrite Hcalls.
Qed.

Lemma get_grads_hook_not_invoked_witness :
  get_grads Cases.detached Toy.texts Toy.st0
  = (Raise IndexError,
     mkState true true true [0] 1 [mkTensor [1] [1%Q]]).
Proof.
  eapply (get_grads_hook_not_invoked Cases.detached Toy.texts Toy.st0 _ _ _
            {| hook_calls := []; param_grads := [mkTensor [1] [1%Q]] |}).
  - reflexivity.
  - repeat constructor; eexists; vm_compute; reflexivity.
  - unfold backward_trace. split; [vm_compute; reflexivity|].
    split; [vm_compute; reflexivity|]. split; reflexivity.
  - reflexivity.
Defined.

(** ** What a call to [get_grads] leaves behind *)

Lemma get_grads_Ok_state self texts st out st' :
  get_grads self texts st = (Ok out, st') →
  ∃ scores labels loss pass,
    backward_trace self texts st scores labels loss pass ∧ st' = restored st pass.
Proof.
  intros (_ & scores & labels & loss & pass & ? & ? & _ & _ & Htrace & _ & _ & ->)%get_grads_Ok.
  by exists scores, labels, loss, pass.
Qed.

Lemma restored_fresh st pass :
  handles_fresh st →
  backward_hooks (restored st pass) = backward_hooks st ∧
  handles_fresh (restored st pass).
Proof.
  intros Hfresh. unfold handles_fresh in *. simpl.
  rewrite filter_fresh_handle by done. split; [done|].
  eapply Forall_impl; [exact Hfresh|]. simpl. lia.
Qed.

(** X8: a call that returns has put the [requires_grad] flag back to its
    value before the call, has removed its own hook (with handles issued in
    increasing order, the registered hooks are those from before the call),
    has not touched the autograd switch, and leaves in the parameters exactly
    the gradients of its own backward pass, whatever was accumulated
    before. *)
Theorem get_grads_returns_clean self texts st out st' :
  get_grads self texts st = (Ok out, st') →
  requires_grad st' = requires_grad st ∧
  grad_enabled st' = grad_enabled st ∧
  (next_handle st ∉ backward_hooks st') ∧
  (handles_fresh st → backward_hooks st' = backward_hooks st ∧ handles_fresh st') ∧
  ∃ scores labels loss pass,
    backward_trace self texts st scores labels loss pass ∧
    accumulated_grads st' = param_grads pass.
Proof.
  intros (scores & labels & loss & pass & Htrace & ->)%get_grads_Ok_state.
  split_and!; [done | done | | by apply restored_fresh |].
  - simpl. by intros [? _]%list_elem_of_filter.
  - by exists scores, labels, loss, pass.
Qed.

Lemma get_grads_returns_clean_witness :
  ∃ out st',
    get_grads Toy.classifier Toy.texts Cases.st1 = (Ok out, st') ∧
    requires_grad st' = true ∧ backward_hooks st' = [4] ∧
    accumulated_grads st' = [mkTensor [1] [1%Q]].
Proof.
  eexists _, _. split; [vm_compute; reflexivity|].
  destruct (get_grads_returns_clean Toy.classifier Toy.texts Cases.st1 _ _
              ltac:(vm_compute; reflexivity)) as (Hflag & _ & _ & Hhooks & _).
  split; [exact Hflag|]. split; [|reflexivity].
  apply Hhooks. repeat constructor.
Defined.

(** X9: a call that raises after the type check leaves the model in
    training mode, the embedding weight trainable and the hook of this call
    registered after the earlier ones; the autograd switch is as before. *)
Theorem get_grads_raising_run self texts st e st' :
  is_T5ForTextToText (model self) = false →
  get_grads self texts st = (Raise e, st') →
  training st' = true ∧ requires_grad st' = true ∧
  backward_hooks st' = backward_hooks st ++ [next_handle st] ∧
  next_handle st' = S (next_handle st) ∧
  grad_enabled st' = grad_enabled st.
Proof.
  intros Ht5 H. by destruct (get_grads_Raise _ _ _ _ _ Ht5 H) as [->|[pass ->]].
Qed.

Lemma get_grads_raising_run_witness :
  ∃ st', get_grads Toy.failing Toy.texts Cases.st1 = (Raise RuntimeError, st') ∧
         requires_grad st' = true ∧ backward_hooks st' = [4; 7].
Proof.
  eexists. split; [vm_compute; reflexivity|].
  destruct (get_grads_raising_run Toy.failing Toy.texts Cases.st1 RuntimeError _
              eq_refl ltac:(vm_compute; reflexivity)) as (_ & Hflag & Hhooks & _).
  split; [exact Hflag | exact Hhooks].
Defined.

(** X10: what [get_grads] computes does not depend on what the model
    carried before the call: gradients accumulated earlier are cleared before
    the passes run, so the whole outcome is the same without them, and the
    earlier value of the [requires_grad] flag only decides the value put back
    at the end, not the returned tokens, ids and gradients nor the exception
    raised. *)
Theorem get_grads_ignores_prior_state self texts st stale flag :
  is_T5ForTextToText (model self) = false →
  get_grads self texts (set_accumulated_grads stale st) = get_grads self texts st ∧
  (get_grads self texts (set_requires_grad flag st)).1 = (get_grads self texts st).1.
Proof.
  intros Ht5. rewrite !get_grads_normal_form by done. split; [reflexivity|].
  change (forward_backward self texts (set_requires_grad flag st))
    with (forward_backward self texts st).
  destruct (forward_backward self texts st) as [[toks pass]|e]; [|done].
  by destruct (captured_split pass).
Qed.

Lemma get_grads_ignores_prior_state_witness :
  get_grads Toy.classifier Toy.texts
    (set_accumulated_grads [mkTensor [1] [9%Q]] Toy.st0)
  = get_grads Toy.classifier Toy.texts Toy.st0.
Proof.
  apply (get_grads_ignores_prior_state Toy.classifier Toy.texts Toy.st0
           [mkTensor [1] [9%Q]] true). reflexivity.
Defined.

(** X11: two calls in a row that both return leave the [requires_grad]
    flag and the registered hooks as they were before the first call, use two
    different handles, and keep the handles in increasing order. *)
Theorem get_grads_twice self texts1 texts2 st out1 st1 out2 st2 :
  handles_fresh st →
  get_grads self texts1 st = (Ok out1, st1) →
  get_grads self texts2 st1 = (Ok out2, st2) →
  requires_grad st2 = requires_grad st ∧
  backward_hooks st2 = backward_hooks st ∧
  next_handle st1 = S (next_handle st) ∧
  next_handle st2 = S (S (next_handle st)) ∧
  handles_fresh st2.
Proof.
  intros Hfresh (? & ? & ? & pass1 & _ & ->)%get_grads_Ok_state
                (? & ? & ? & pass2 & _ & ->)%get_grads_Ok_state.
  destruct (restored_fresh st pass1 Hfresh) as [Hh1 Hf1].
  destruct (restored_fresh (restored st pass1) pass2 Hf1) as [Hh2 Hf2].
  split_and!; [done | congruence | done | done | done].
Qed.

Lemma get_grads_twice_witness :
  ∃ out1 st1 out2 st2,
    get_grads Toy.classifier Toy.texts Toy.st0 = (Ok out1, st1) ∧
    get_grads Toy.classifier Toy.five st1 = (Ok out2, st2) ∧
    requires_grad st2 = false ∧ backward_hooks st2 = [].
Proof.
  eexists _, _, _, _. split; [vm_compute; reflexivity|].
  split; [vm_compute; reflexivity|].
  destruct (get_grads_twice Toy.classifier Toy.texts Toy.five Toy.st0 _ _ _ _
              ltac:(constructor) ltac:(vm_compute; reflexivity)
              ltac:(vm_compute; reflexivity)) as (Hflag & Hhooks & _).
  split; [exact Hflag | exact Hhooks].
Defined.

(** ** The gradient list, entry by entry *)

(** X12: once a gradient has been captured, lines 95-98 cannot fail: the
    transposition and the split are only applied to a tensor with at least
    three dimensions, and then every entry of the list has one dimension less
    than the captured gradient; a gradient with at most two dimensions is
    returned as it is, as the only entry. *)
Theorem split_grad_never_raises raw :
  ∃ grads,
    split_grad raw = Ok grads ∧
    (length (shape raw) ≤ 2 → grads = [raw]) ∧
    (2 < length (shape raw) →
       Forall (λ g, S (length (shape g)) = length (shape raw)) grads).
Proof.
  destruct (split_grad_spec raw) as [Hhigh Hlow].
  destruct (decide (2 < length (shape raw))) as [Hdim|Hdim].
  - destruct (Hhigh Hdim) as (s0 & s1 & rest & grads & Hs & Hg & Hlen & Hj).
    exists grads. split; [done|]. split; [lia|]. intros _.
    apply Forall_forall. intros g [j Hg']%list_elem_of_lookup_1.
    destruct (Hj j) as (g' & Hg'' & Hsg & _).
    { apply lookup_lt_Some in Hg'. lia. }
    assert (g' = g) as -> by congruence. rewrite Hs, Hsg. done.
  - exists [raw]. split; [apply Hlow; lia|]. split; [done | lia].
Qed.

Lemma lookup_block {A} n k r (d : list A) :
  r < n → block n k d !! r = d !! (k * n + r).
Proof. intros Hr. unfold block. by rewrite lookup_take_lt, lookup_drop. Qed.

Lemma lookup_concat_uniform {A} n (rows : list (list A)) i r :
  Forall (λ row, length row = n) rows → r < n →
  concat rows !! (i * n + r) = rows !! i ≫= (λ row, row !! r).
Proof.
  intros H Hr. revert i. induction H as [|row rows Hrow _ IH]; intros i; [done|].
  destruct i as [|i]; simpl.
  - rewrite lookup_app_l by lia. done.
  - rewrite lookup_app_r by lia. rewrite <- IH. f_equal. lia.
Qed.

(** X13: for a captured gradient of shape [s0, s1, ...] with its elements
    all there, entry [j] of the list holds at [i, r] the element that the
    captured gradient holds at [i, j, r]: the list is indexed by the second
    dimension of the captured gradient and each entry by its first. *)
Theorem split_grad_entry raw s0 s1 rest grads i j r :
  shape raw = s0 :: s1 :: rest → rest ≠ [] →
  length (data raw) = numel (shape raw) →
  split_grad raw = Ok grads →
  i < s0 → j < s1 → r < numel rest →
  ∃ g, grads !! j = Some g ∧ shape g = s0 :: rest ∧
       data g !! (i * numel rest + r) = data raw !! ((i * s1 + j) * numel rest + r).
Proof.
  intros Hs Hrest Hd Hsplit Hi Hj Hr.
  destruct (split_grad_spec raw) as [Hhigh _].
  destruct Hhigh as (s0' & s1' & rest' & grads' & Hs' & Hg & _ & Hentry).
  { rewrite Hs. destruct rest; [done | simpl; lia]. }
  rewrite Hs in Hs'. injection Hs' as <- <- <-.
  assert (grads' = grads) as -> by congruence.
  destruct (Hentry j Hj) as (g & Hgj & Hsg & Hdata).
  exists g. split; [done|]. split; [done|]. rewrite (Hdata Hd). unfold gather.
  rewrite (lookup_concat_uniform (numel rest)); [|  |done].
  - rewrite list_lookup_fmap, lookup_seq_lt by done. simpl.
    by apply lookup_block.
  - apply Forall_fmap, Forall_forall. intros i' [_ Hi']%elem_of_seq. simpl.
    apply length_block. rewrite Hd, Hs.
    change (numel (s0 :: s1 :: rest)) with (s0 * (s1 * numel rest)).
    rewrite Nat.mul_assoc. apply Nat.mul_le_mono_r. nia.
Qed.

Lemma split_grad_entry_witness :
  ∃ g, (gradient <$> (get_grads Toy.classifier Toy.texts Toy.st0).1)
         ≫= (λ grads, list_getitem grads 2) = Ok g ∧
       data g !! (1 * 2 + 0) = data (Toy.embedding_grad 2 3) !! ((1 * 3 + 2) * 2 + 0).
Proof.
  destruct (split_grad_entry (Toy.embedding_grad 2 3) 2 3 [2]
              [mkTensor [2; 2] [0; 1; 6; 7]%Q; mkTensor [2; 2] [2; 3; 8; 9]%Q;
               mkTensor [2; 2] [4; 5; 10; 11]%Q] 1 2 0)
    as (g & Hg & _ & Hdata); try reflexivity; try (simpl; lia); try done.
  exists g. split; [|exact Hdata].
  injection Hg as <-. vm_compute. reflexivity.
Defined.

(** ** Autograd is off inside [__call__] *)

Lemma set_grad_enabled_false_idem st :
  set_grad_enabled false (set_grad_enabled false st) = set_grad_enabled false st.
Proof. reflexivity. Qed.

Lemma model_predict_without_grad self inputs st :
  _model_predict (without_grad self) inputs (set_grad_enabled false st)
  = _model_predict self inputs (set_grad_enabled false st).
Proof. reflexivity. Qed.

Lemma M_bind_ext {A B} (m m' : M A) (k k' : A → M B) st :
  m st = m' st →
  (∀ a st', m' st = (Ok a, st') → k a st' = k' a st') →
  (m ≫= k) st = (m' ≫= k') st.
Proof.
  intros Hm Hk. unfold mbind, M_bind. rewrite Hm.
  destruct (m' st) as [[a|e] st']; [by apply Hk | done].
Qed.

Lemma predict_slices_without_grad utils self g groups st :
  predict_slices utils (_model_predict (without_grad self)) g groups
    (set_grad_enabled false st)
  = predict_slices utils (_model_predict self) g groups (set_grad_enabled false st).
Proof.
  revert g. induction groups as [|g' groups IH]; intros g.
  - reflexivity.
  - change (predict_slices utils ?f g (g' :: groups)) with
      (batch_preds ← f g;
       rows ← lift (as_sequence utils batch_preds);
       rest ← predict_slices utils f g' groups;
       mret (rows ++ rest)).
    apply M_bind_ext; [apply model_predict_without_grad|].
    intros v st' Hv.
    destruct (model_predict_reads self g (set_grad_enabled false st)) as [r Hr].
    rewrite Hr in Hv. injection Hv as _ <-.
    apply M_bind_ext; [done|]. intros rows st' [= _ <-].
    apply M_bind_ext; [apply IH | done].
Qed.

Lemma call_unfold utils self texts st :
  __call__ utils self texts st
  = (let '(r, st') :=
       batch_model_predict utils (_model_predict self) (tokenize self texts)
         (batch_size self) (set_grad_enabled false st) in
     (r, set_grad_enabled (grad_enabled st) st')).
Proof.
  unfold __call__, with_no_grad. unfold mbind at 1, M_bind at 1.
  by destruct (batch_model_predict _ _ _ _ _) as [[rows|e] st'].
Qed.

Lemma batch_without_grad utils self items n st :
  batch_model_predict utils (_model_predict (without_grad self)) items n
    (set_grad_enabled false st)
  = batch_model_predict utils (_model_predict self) items n (set_grad_enabled false st).
Proof.
  unfold batch_model_predict. destruct (slices n items) as [|g groups]; [done|].
  apply predict_slices_without_grad.
Qed.

(** X14: every forward pass that [__call__] makes runs with the autograd
    switch off, whatever the switch was at the call: the outcome is that of
    the same call on a model that switches autograd off itself before each
    forward pass, and it is the same for both positions of the switch at the
    call.  When [__call__] is left, by return or by exception, the switch is
    as the caller had it. *)
Theorem call_runs_without_grad utils self texts st :
  __call__ utils self texts st = __call__ utils (without_grad self) texts st ∧
  (∀ flag, (__call__ utils self texts (set_grad_enabled flag st)).1
           = (__call__ utils self texts st).1) ∧
  grad_enabled (__call__ utils self texts st).2 = grad_enabled st.
Proof.
  split_and!.
  - rewrite !call_unfold.
    change (tokenize (without_grad self) texts) with (tokenize self texts).
    change (batch_size (without_grad self)) with (batch_size self).
    by rewrite batch_without_grad.
  - intros flag. rewrite !call_unfold.
    change (set_grad_enabled false (set_grad_enabled flag st))
      with (set_grad_enabled false st).
    by destruct (batch_model_predict _ _ _ _ _) as [r st'].
  - rewrite call_unfold.
    by destruct (batch_model_predict _ _ _ _ _) as [r st'].
Qed.

Lemma call_runs_without_grad_witness :
  forward (model Cases.grad_sensitive) Toy.st0 ∅ = Raise RuntimeError ∧
  ∃ outputs, __call__ Toy.utils Cases.grad_sensitive Toy.texts Toy.st0
             = (Ok outputs, Toy.st0) ∧ length outputs = 2.
Proof.
  split; [reflexivity|].
  destruct (call_runs_without_grad Toy.utils Cases.grad_sensitive Toy.texts Toy.st0)
    as (Heq & _ & _).
  rewrite Heq. eexists. split; vm_compute; reflexivity.
Defined.

(** ** One forward pass for all texts *)

Lemma model_predict_Ok_inv self inputs st v st' :
  _model_predict self inputs st = (Ok v, st') →
  ∃ m tensors outputs first,
    dict_of_lists inputs = Ok m ∧ dict_of_tensors m = Ok tensors ∧
    forward (model self) st tensors = Ok outputs ∧ outputs !! 0 = Some first ∧
    v = (if isinstance_str first then VSeq outputs else first).
Proof.
  unfold _model_predict, reads.
  destruct (dict_of_lists inputs) as [m|e] eqn:Hm; [|done]. rewrite result_bind_Ok.
  destruct (dict_of_tensors m) as [tensors|e] eqn:Ht; [|done]. rewrite result_bind_Ok.
  destruct (forward (model self) st tensors) as [outputs|e] eqn:Hf; [|done].
  rewrite result_bind_Ok. destruct outputs as [|first outputs]; [done|].
  intros Hv. exists m, tensors, (first :: outputs), first.
  split_and!; try done.
  change (list_getitem (first :: outputs) 0) with (Ok first) in Hv.
  rewrite result_bind_Ok in Hv. destruct (isinstance_str first); by simplify_eq.
Qed.

(** X15: [get_grads] does not use [batch_size].  In a run that returns,
    the model is called once, in the prepared state, on tensors whose first
    dimension is the number of all input texts, and the score tensor is the
    first element of what it returns; the outcome is the same for every
    [batch_size]. *)
Theorem get_grads_single_forward self texts st out st' :
  get_grads self texts st = (Ok out, st') →
  (∃ m tensors outputs scores,
     dict_of_lists (tokenize self texts) = Ok m ∧
     dict_of_tensors m = Ok tensors ∧
     forward (model self) (prepared st) tensors = Ok outputs ∧
     outputs !! 0 = Some (VTensor scores) ∧
     ∀ k t, tensors !! k = Some t → shape t !! 0 = Some (length texts)) ∧
  ∀ n, get_grads (with_batch_size n self) texts st = (Ok out, st').
Proof.
  intros H. split; [|intros n; exact H].
  apply get_grads_Ok_state in H as (scores & labels & loss & pass & (Hp & _) & _).
  apply model_predict_Ok_inv in Hp as (m & tensors & outputs & first & Hm & Ht & Hf & H0 & Hv).
  exists m, tensors, outputs, scores. split_and!; try done.
  { destruct first; simpl in Hv; by simplify_eq. }
  intros k t Hk.
  destruct (tokenize self texts) as [|e rest] eqn:Hids; [done|].
  destruct (input_tensors_shape e rest m tensors Hm Ht) as [Hdom Hshape].
  assert (is_Some (e !! k)) as [v Hv'].
  { apply elem_of_dom. rewrite <- Hdom. apply elem_of_dom. eauto. }
  destruct (Hshape k v Hv') as (t' & Ht' & Hs & _).
  assert (t' = t) as -> by congruence. rewrite Hs. simpl. f_equal.
  apply (f_equal length) in Hids. unfold tokenize in Hids.
  rewrite length_fmap in Hids. simpl in Hids. lia.
Qed.

Lemma get_grads_single_forward_witness :
  ∃ out st',
    get_grads Toy.classifier Toy.five Toy.st0 = (Ok out, st') ∧
    batch_size Toy.classifier = 2 ∧
    get_grads (with_batch_size 1 Toy.classifier) Toy.five Toy.st0 = (Ok out, st').
Proof.
  eexists _, _. split; [vm_compute; reflexivity|]. split; [reflexivity|].
  apply (get_grads_single_forward Toy.classifier Toy.five Toy.st0).
  vm_compute. reflexivity.
Defined.
